(** * run_ipsae_batch: discovery, invocation and aggregation pipeline

    A shallow embedding of [run_ipsae_batch.py].  The script walks a Boltz
    output tree, runs [ipsae.py] once per PAE/CIF pair, parses each report
    into a table, concatenates the tables and writes CSV files.

    The operating system, the external tool and the table library are
    reached through an explicit interface ([Platform]); the control flow
    of the four functions of the script is embedded as written, with the
    world threaded through the calls, every [print] recorded as a
    structured message and every [to_csv] that returns recorded as a write;
    [os.listdir] and [to_csv] can raise, which ends the process. *)

From stdpp Require Import gmap strings list fin_maps pretty.
From Stdlib Require Import ZArith Ascii.

Local Open Scope string_scope.
Local Open Scope list_scope.

Set Warnings "-clear-no-such-hyp".

(** ** Strings and POSIX paths ([str], [os.path]) *)

Module PyStr.

(** [s.startswith(p)] *)
Fixpoint startswith (p s : string) : bool :=
  match p, s with
  | EmptyString, _ => true
  | String _ _, EmptyString => false
  | String a p', String b s' => if Ascii.eqb a b then startswith p' s' else false
  end.

(** Scan of [str.replace] with an empty replacement: [skip] counts the
    characters of the occurrence being dropped that are still ahead. *)
Fixpoint remove_scan (old : string) (skip : nat) (s : string) : string :=
  match s with
  | EmptyString => EmptyString
  | String c s' =>
      match skip with
      | S k => remove_scan old k s'
      | O =>
          if startswith old s
          then remove_scan old (String.length old - 1) s'
          else String c (remove_scan old 0 s')
      end
  end.

(** [s.replace(old, new)] with [new] empty: every non-overlapping
    occurrence of [old], found left to right, is dropped; an empty [old]
    changes nothing. *)
Definition remove_all (old s : string) : string :=
  match old with
  | EmptyString => s
  | _ => remove_scan old 0 s
  end.

(** [sep.join(parts)] *)
Fixpoint join (sep : string) (parts : list string) : string :=
  match parts with
  | [] => EmptyString
  | [p] => p
  | p :: rest => p +:+ sep +:+ join sep rest
  end.

(** Position just after the last occurrence of [c] in [s], 0 when there
    is none ([s.rfind(c) + 1]). *)
Fixpoint after_last (c : Ascii.ascii) (s : string) : nat :=
  match s with
  | EmptyString => 0
  | String a s' =>
      match after_last c s' with
      | S k => S (S k)
      | O => if Ascii.eqb a c then 1 else 0
      end
  end.

(** [s[:n]] and [s[n:]] *)
Fixpoint take (n : nat) (s : string) : string :=
  match n, s with
  | S k, String a s' => String a (take k s')
  | _, _ => EmptyString
  end.

Fixpoint drop (n : nat) (s : string) : string :=
  match n, s with
  | S k, String _ s' => drop k s'
  | _, _ => s
  end.

(** [s.rstrip(c)] *)
Fixpoint rstrip (c : Ascii.ascii) (s : string) : string :=
  match s with
  | EmptyString => EmptyString
  | String a s' =>
      match rstrip c s' with
      | EmptyString => if Ascii.eqb a c then EmptyString else String a EmptyString
      | t => String a t
      end
  end.

(** [s == c * len(s)] *)
Fixpoint all_char (c : Ascii.ascii) (s : string) : bool :=
  match s with
  | EmptyString => true
  | String a s' => Ascii.eqb a c && all_char c s'
  end.

End PyStr.

Module OsPath.

Definition sep : Ascii.ascii := "/"%char.
Definition extsep : Ascii.ascii := "."%char.

(** [posixpath.join(a, b)] *)
Definition join (a b : string) : string :=
  if PyStr.startswith "/" b then b
  else if (String.eqb a EmptyString || PyStr.startswith "/" (PyStr.drop (String.length a - 1) a))%bool
       then a +:+ b
       else a +:+ "/" +:+ b.

(** [posixpath.basename(p)] *)
Definition basename (p : string) : string :=
  PyStr.drop (PyStr.after_last sep p) p.

(** [posixpath.dirname(p)] *)
Definition dirname (p : string) : string :=
  let head := PyStr.take (PyStr.after_last sep p) p in
  if (negb (String.eqb head EmptyString) && negb (PyStr.all_char sep head))%bool
  then PyStr.rstrip sep head
  else head.

(** The scan of [genericpath._splitext] over the dots leading the file
    name: [k] characters are left before the last dot; the result says
    whether one of them is not a dot. *)
Fixpoint has_stem (k : nat) (s : string) : bool :=
  match k, s with
  | S k', String a s' => if Ascii.eqb a extsep then has_stem k' s' else true
  | _, _ => false
  end.

(** [posixpath.splitext(p)] *)
Definition splitext (p : string) : string * string :=
  let sepIndex1 := PyStr.after_last sep p in
  let dotIndex1 := PyStr.after_last extsep p in
  if (sepIndex1 <? dotIndex1)%nat &&
     has_stem (dotIndex1 - 1 - sepIndex1) (PyStr.drop sepIndex1 p)
  then (PyStr.take (dotIndex1 - 1) p, PyStr.drop (dotIndex1 - 1) p)
  else (p, EmptyString).

End OsPath.

(** ** Tables ([pandas])

    The table library is outside the script; the operations the script
    calls are given here by their documented behaviour. *)

(** A cell of a table: a string, a number or the missing value. *)
Inductive scalar (number : Type) : Type :=
  | Str (s : string)
  | Num (x : number)
  | NaN.

Arguments Str {number} s.
Arguments Num {number} x.
Arguments NaN {number}.

(** A [DataFrame]: the column index and the rows, each row a mapping from
    column name to cell. The row index is not modelled (the script resets
    it with [ignore_index=True] and never writes it). *)
Record DataFrame (number : Type) : Type := {
  columns : list string;
  rows : list (gmap string (scalar number))
}.

Arguments columns {number} d.
Arguments rows {number} d.

(** Numbers as Python has them ([int], [bool], [float] other than NaN):
    the development needs their equality ([==]) and their default
    rendering ([str(x)], which is also what an f-string field [{x}]
    produces). The cutoffs of the command line are such numbers.

    [concat_cast dfs c x] is what the number [x] of column [c] becomes
    when [pd.concat(dfs)] settles the dtype of the combined column: an
    [int] column that receives missing values, or meets a [float]
    column, turns into [float], so that [1] becomes [1.0]. *)
Class PyNumber (number : Type) := {
  number_eqb : number -> number -> bool;
  number_str : number -> string;
  concat_cast : list (DataFrame number) -> string -> number -> number
}.

Section Pandas.
Context {number : Type} {number_ops : PyNumber number}.

Local Abbreviation cellT := (scalar number).
Local Abbreviation rowT := (gmap string (scalar number)).
Local Abbreviation frame := (DataFrame number).

(** [len(df)] *)
Definition len (df : frame) : nat := length (rows df).

(** [df.empty]: one of the two axes has length 0. *)
Definition empty (df : frame) : bool :=
  match columns df, rows df with
  | [], _ => true
  | _, [] => true
  | _, _ => false
  end.

(** [c in df.columns] *)
Definition has_column (c : string) (df : frame) : bool :=
  bool_decide (c ∈ columns df).

(** The cell of row [r] under column [c]. *)
Definition cell (c : string) (r : rowT) : cellT := default NaN (r !! c).

(** [df[c]] as the list of its cells. *)
Definition column (c : string) (df : frame) : list cellT :=
  cell c <$> rows df.

(** [df[c] = v] with a scalar [v]: the column is overwritten when it
    exists and appended otherwise, and every row gets [v]. *)
Definition set_column (c : string) (v : cellT) (df : frame) : frame :=
  {| columns := if has_column c df then columns df else columns df ++ [c];
     rows := (λ r, <[c := v]> r) <$> rows df |}.

(** One comparison of [series == t]: a missing value on either side
    compares unequal (also to itself), a string never equals a number. *)
Definition cell_eq (v t : cellT) : bool :=
  match v, t with
  | Str a, Str b => String.eqb a b
  | Num x, Num y => number_eqb x y
  | _, _ => false
  end.

(** [df[mask].copy()] with the mask given row by row. *)
Definition select (mask : rowT -> bool) (df : frame) : frame :=
  {| columns := columns df; rows := List.filter mask (rows df) |}.

(** Identity of values in [Series.unique()]: as [==], except that all
    missing values count as one value. *)
Definition same_value (v t : cellT) : bool :=
  match v, t with
  | NaN, NaN => true
  | _, _ => cell_eq v t
  end.

Fixpoint unique_from (seen : list cellT) (l : list cellT) : list cellT :=
  match l with
  | [] => []
  | v :: l' =>
      if existsb (same_value v) seen then unique_from seen l'
      else v :: unique_from (v :: seen) l'
  end.

(** [series.unique()]: the distinct values in order of first appearance,
    the missing value included. *)
Definition unique (l : list cellT) : list cellT := unique_from [] l.

(** The row of a table brought to the column index [cols]: cells of
    columns the table has are kept, the others are missing. *)
Definition reindex (cols : list string) (df : frame) (r : rowT) : rowT :=
  foldr (λ c m, <[c := if has_column c df then cell c r else NaN]> m) ∅ cols.

(** The union of the column indexes, in order of first appearance. *)
Definition union_columns (dfs : list frame) : list string :=
  foldl (λ acc df,
           acc ++ List.filter (λ c, negb (bool_decide (c ∈ acc))) (columns df))
        [] dfs.

(** The cell [v] of column [c] once [pd.concat(dfs)] has settled the
    dtype of the column: strings and missing values stay, numbers are
    cast. *)
Definition settle_cell (dfs : list frame) (c : string) (v : cellT) : cellT :=
  match v with
  | Num x => Num (concat_cast dfs c x)
  | _ => v
  end.

Definition settle_row (dfs : list frame) (r : rowT) : rowT :=
  map_imap (λ c v, Some (settle_cell dfs c v)) r.

(** [pd.concat(dfs, ignore_index=True)]: outer join on the column names,
    rows in order, each row brought to the combined column index and its
    numbers cast to the dtype of their column. *)
Definition concat (dfs : list frame) : frame :=
  let cols := union_columns dfs in
  {| columns := cols;
     rows := mjoin ((λ df, (λ r, settle_row dfs (reindex cols df r)) <$> rows df)
                    <$> dfs) |}.

(** [pd.isna(v)] *)
Definition is_missing (v : cellT) : bool :=
  match v with
  | NaN => true
  | _ => false
  end.

(** The text an f-string field produces for a cell. *)
Definition format_cell (v : cellT) : string :=
  match v with
  | Str s => s
  | Num x => number_str x
  | NaN => "nan"
  end.

End Pandas.

(** ** The world outside the script *)

(** How a child process started by [subprocess.run] ends: it exits with a
    status and its captured output, or starting or reading it raises. *)
Inductive completed : Type :=
  | Exited (returncode : Z) (stdout stderr : string)
  | Raised (e : string).

(** What [pd.read_csv] gives: a table or an exception. *)
Inductive parsed (number : Type) : Type :=
  | Table (df : DataFrame number)
  | ParseError (e : string).

Arguments Table {number} df.
Arguments ParseError {number} e.

(** The calls the script makes to [os], [glob], [subprocess] and
    [pd.read_csv], over a state of the world [World]. Reads leave the
    world as it is; running the external tool and removing a file give a
    new world. [remove] is the whole [try: os.remove(p) except: pass]: a
    removal that fails leaves the world unchanged. Paths are POSIX
    paths, relative ones being relative to the current directory of the
    process.

    Two calls that can raise are not guarded by the script: [os.listdir]
    (the path is not a directory, or may not be read) and
    [DataFrame.to_csv] (the directory of the file does not exist, or may
    not be written). They give [None] when they raise; the exception
    then ends the process. [to_csv] that returns gives the world with the
    file written; one that raises leaves the world as it is.
    [os.path.exists], [os.path.isdir] and [glob.glob] do not raise. *)
Class Platform (number World : Type) := {
  path_exists : World -> string -> bool;
  path_isdir : World -> string -> bool;
  listdir : World -> string -> option (list string);
  glob : World -> string -> list string;
  subprocess_run : World -> list string -> completed * World;
  read_csv : World -> string -> parsed number;
  remove : World -> string -> World;
  to_csv : World -> string -> DataFrame number -> option World
}.

(** ** Messages printed by the script, one constructor per [print] *)

Inductive message (number : Type) : Type :=
  | PredictionsNotFound (predictions_dir : string)
  | ProcessingFolder (input_folder : string)
  | FoundPair (pae_basename cif_basename : string)
  | WarnCifNotFound (pae_basename : string)
  | Running (command_line : string)
  | WarnOutputNotFound (output_txt : string)
  | ErrorRunning (cmd : list string) (returncode : Z)
  | Stdout (text : string)
  | Stderr (text : string)
  | UnexpectedError (e : string)
  | ErrorParsing (txt_file e : string)
  | OutDirNotFound (out_dir : string)
  | ScriptNotFound (ipsae_script : string)
  | FindingPairs
  | NoPairsFound
  | FoundPairs (n : nat)
  | Processing (i total : nat) (input_name : string)
  | Processed (n : nat)
  | FailedToParse (output_txt : string)
  | FailedToGenerate
  | Combined (total_rows structures : nat)
  | FoundTypes (actual_types : list (scalar number))
  | SavedType (n : nat) (output_file : string)
  | SavedAB (n : nat) (ab_file : string)
  | SavedBA (n : nat) (ba_file : string)
  | SavedComplete (n : nat) (complete_file : string)
  | NoResults.

Arguments PredictionsNotFound {number}.
Arguments ProcessingFolder {number}.
Arguments FoundPair {number}.
Arguments WarnCifNotFound {number}.
Arguments Running {number}.
Arguments WarnOutputNotFound {number}.
Arguments ErrorRunning {number}.
Arguments Stdout {number}.
Arguments Stderr {number}.
Arguments UnexpectedError {number}.
Arguments ErrorParsing {number}.
Arguments OutDirNotFound {number}.
Arguments ScriptNotFound {number}.
Arguments FindingPairs {number}.
Arguments NoPairsFound {number}.
Arguments FoundPairs {number}.
Arguments Processing {number}.
Arguments Processed {number}.
Arguments FailedToParse {number}.
Arguments FailedToGenerate {number}.
Arguments Combined {number}.
Arguments FoundTypes {number}.
Arguments SavedType {number}.
Arguments SavedAB {number}.
Arguments SavedBA {number}.
Arguments SavedComplete {number}.
Arguments NoResults {number}.

(** The parsed command line ([argparse]). *)
Record Args (number : Type) : Type := {
  out_dir : string;
  ipsae_script : string;
  pae_cutoff : number;
  dist_cutoff : number;
  output_prefix : string
}.

Arguments out_dir {number} a.
Arguments ipsae_script {number} a.
Arguments pae_cutoff {number} a.
Arguments dist_cutoff {number} a.
Arguments output_prefix {number} a.

(** What a run of the script leaves behind: the exit status of the
    process, the lines printed, the [to_csv] calls that returned, in
    order (file name and table written), and the world. *)
Record Outcome (number World : Type) : Type := {
  exit_status : Z;
  printed : list (message number);
  written : list (string * DataFrame number);
  world_after : World
}.

Arguments exit_status {number World} o.
Arguments printed {number World} o.
Arguments written {number World} o.
Arguments world_after {number World} o.

(** ** The script *)

Section Script.
Context {number World : Type} {number_ops : PyNumber number}
  {platform : Platform number World}.

Local Abbreviation cellT := (scalar number).
Local Abbreviation rowT := (gmap string (scalar number)).
Local Abbreviation frame := (DataFrame number).
Local Abbreviation msg := (message number).

(** A structure pair: [(pae_file, cif_file, input_name)]. *)
Definition pair : Type := string * string * string.

(** *** [find_boltz_structures] *)

(** The glob pattern of the PAE files of one input folder (line 43). *)
Definition pae_pattern (input_path input_folder : string) : string :=
  OsPath.join input_path ("pae_" +:+ input_folder +:+ "_model_*.npz").

(** [model_part] (line 48). *)
Definition model_part (input_folder pae_file : string) : string :=
  PyStr.remove_all ".npz"
    (PyStr.remove_all ("pae_" +:+ input_folder +:+ "_") (OsPath.basename pae_file)).

(** [cif_file] (line 51). *)
Definition cif_path (input_path input_folder pae_file : string) : string :=
  OsPath.join input_path
    (input_folder +:+ "_" +:+ model_part input_folder pae_file +:+ ".cif").

(** The loop over the PAE files of one folder (lines 45-57). *)
Fixpoint scan_pae_files (w : World) (input_path input_folder : string)
    (pae_files : list string) : list pair * list msg :=
  match pae_files with
  | [] => ([], [])
  | pae_file :: rest =>
      let pae_basename := OsPath.basename pae_file in
      let cif_file := cif_path input_path input_folder pae_file in
      let '(structure_pairs, log) := scan_pae_files w input_path input_folder rest in
      if path_exists w cif_file
      then ((pae_file, cif_file, input_folder) :: structure_pairs,
            FoundPair (OsPath.basename pae_file) (OsPath.basename cif_file) :: log)
      else (structure_pairs, WarnCifNotFound pae_basename :: log)
  end.

(** The loop over the entries of [predictions] (lines 34-57). *)
Fixpoint scan_folders (w : World) (predictions_dir : string)
    (folders : list string) : list pair * list msg :=
  match folders with
  | [] => ([], [])
  | input_folder :: rest =>
      let input_path := OsPath.join predictions_dir input_folder in
      let '(later_pairs, later_log) := scan_folders w predictions_dir rest in
      if negb (path_isdir w input_path) then (later_pairs, later_log)
      else
        let pae_files := glob w (pae_pattern input_path input_folder) in
        let '(structure_pairs, log) :=
          scan_pae_files w input_path input_folder pae_files in
        (structure_pairs ++ later_pairs,
         ProcessingFolder input_folder :: log ++ later_log)
  end.

(** The result is [None] when [os.listdir] raises: nothing has been
    printed by the function then, and the exception leaves it. *)
Definition find_boltz_structures (w : World) (out_dir : string)
    : option (list pair * list msg) :=
  let predictions_dir := OsPath.join out_dir "predictions" in
  if negb (path_exists w predictions_dir)
  then Some ([], [PredictionsNotFound predictions_dir])
  else
    match listdir w predictions_dir with
    | Some folders => Some (scan_folders w predictions_dir folders)
    | None => None
    end.

(** *** [run_ipsae] *)

(** [cmd] (lines 77-81). *)
Definition command (ipsae_script_path pae_file cif_file : string)
    (pae_cutoff dist_cutoff : number) : list string :=
  ["python"; ipsae_script_path; pae_file; cif_file;
   number_str pae_cutoff; number_str dist_cutoff].

(** [output_txt] (lines 87-88). *)
Definition expected_output (cif_file : string)
    (pae_cutoff dist_cutoff : number) : string :=
  let cif_basename := fst (OsPath.splitext (OsPath.basename cif_file)) in
  cif_basename +:+ "_" +:+ number_str pae_cutoff +:+ "_"
    +:+ number_str dist_cutoff +:+ ".txt".

(** The result is the path of the report or [None], with the world the
    child process left and the lines printed. [check=True] turns a
    non-zero exit status into [CalledProcessError]; both handlers return
    [None]. *)
Definition run_ipsae (w : World) (ipsae_script_path pae_file cif_file : string)
    (pae_cutoff dist_cutoff : number) : option string * World * list msg :=
  let cmd := command ipsae_script_path pae_file cif_file pae_cutoff dist_cutoff in
  let running := Running (PyStr.join " " cmd) in
  match subprocess_run w cmd with
  | (Exited returncode stdout stderr, w') =>
      if (returncode =? 0)%Z then
        let output_txt := expected_output cif_file pae_cutoff dist_cutoff in
        let current_dir_output := output_txt in
        let cif_dir_output := OsPath.join (OsPath.dirname cif_file) output_txt in
        if path_exists w' current_dir_output
        then (Some current_dir_output, w', [running])
        else if path_exists w' cif_dir_output
        then (Some cif_dir_output, w', [running])
        else (None, w', [running; WarnOutputNotFound output_txt])
      else
        (None, w', [running; ErrorRunning cmd returncode; Stdout stdout; Stderr stderr])
  | (Raised e, w') => (None, w', [running; UnexpectedError e])
  end.

(** *** [parse_ipsae_output] *)

Definition parse_ipsae_output (w : World) (txt_file : string)
    : option frame * list msg :=
  match read_csv w txt_file with
  | Table df => (Some df, [])
  | ParseError e => (None, [ErrorParsing txt_file e])
  end.

(** *** [main] *)

(** The metadata columns added to a parsed table (lines 175-177). *)
Definition add_metadata (p : pair) (df : frame) : frame :=
  let '(pae_file, cif_file, input_name) := p in
  set_column "cif_file" (Str (OsPath.basename cif_file))
    (set_column "pae_file" (Str (OsPath.basename pae_file))
       (set_column "input_name" (Str input_name) df)).

(** The clean-up of a report left in the current directory
    (lines 183-187). *)
Definition clean_up (w : World) (output_txt : string) : World :=
  if path_exists w output_txt && String.eqb (OsPath.dirname output_txt) EmptyString
  then remove w output_txt
  else w.

(** One iteration of the loop over the pairs (lines 163-191): the [i]-th
    pair of [total], from the world [w] and the tables collected so far. *)
Definition process_pair (args : Args number) (total i : nat) (p : pair)
    (w : World) (all_results : list frame) : World * list frame * list msg :=
  let '(pae_file, cif_file, input_name) := p in
  let '(output_txt, w1, log1) :=
    run_ipsae w (ipsae_script args) pae_file cif_file
      (pae_cutoff args) (dist_cutoff args) in
  let header := Processing i total input_name in
  match output_txt with
  | Some txt =>
      if String.eqb txt EmptyString then (w1, all_results, header :: log1 ++ [FailedToGenerate])
      else
        let '(df, log2) := parse_ipsae_output w1 txt in
        match df with
        | Some df0 =>
            if empty df0
            then (w1, all_results, header :: log1 ++ log2 ++ [FailedToParse txt])
            else
              let df1 := add_metadata p df0 in
              (clean_up w1 txt, all_results ++ [df1],
               header :: log1 ++ log2 ++ [Processed (len df1)])
        | None => (w1, all_results, header :: log1 ++ log2 ++ [FailedToParse txt])
        end
  | None => (w1, all_results, header :: log1 ++ [FailedToGenerate])
  end.

(** The loop over the pairs (line 162), [i] counting from 1. *)
Fixpoint process_pairs (args : Args number) (total i : nat) (pairs : list pair)
    (w : World) (all_results : list frame) : World * list frame * list msg :=
  match pairs with
  | [] => (w, all_results, [])
  | p :: rest =>
      let '(w1, all_results1, log1) := process_pair args total i p w all_results in
      let '(w2, all_results2, log2) :=
        process_pairs args total (S i) rest w1 all_results1 in
      (w2, all_results2, log1 ++ log2)
  end.

(** [output_file] of an interaction type (line 211). *)
Definition type_file (output_prefix : string) (interaction_type : cellT) : string :=
  output_prefix +:+ "_" +:+ format_cell interaction_type +:+ ".csv".

(** [type_df] (line 208). *)
Definition type_rows (combined_df : frame) (interaction_type : cellT) : frame :=
  select (λ r, cell_eq (cell "Type" r) interaction_type) combined_df.

(** The write phase as the sequence of its [print] and [to_csv] calls, in
    program order. Which calls are made depends on the combined table
    only; how far the sequence gets depends on the calls to [to_csv]
    (see [perform]). *)
Inductive action : Type :=
  | Print (m : msg)
  | ToCsv (output_file : string) (df : frame).

(** The loop over [actual_types] (lines 207-213). *)
Fixpoint save_types (output_prefix : string) (combined_df : frame)
    (actual_types : list cellT) : list action :=
  match actual_types with
  | [] => []
  | interaction_type :: rest =>
      let type_df := type_rows combined_df interaction_type in
      (if negb (empty type_df)
       then
         let output_file := type_file output_prefix interaction_type in
         [ToCsv output_file type_df; Print (SavedType (len type_df) output_file)]
       else [])
      ++ save_types output_prefix combined_df rest
  end.

(** [ab_df] and [ba_df] (lines 218 and 225). *)
Definition chain_rows (chn1 chn2 : string) (combined_df : frame) : frame :=
  select (λ r, cell_eq (cell "Chn1" r) (Str chn1)
               && cell_eq (cell "Chn2" r) (Str chn2)) combined_df.

Definition ab_file (output_prefix : string) : string := output_prefix +:+ "_A_to_B.csv".
Definition ba_file (output_prefix : string) : string := output_prefix +:+ "_B_to_A.csv".
Definition complete_file (output_prefix : string) : string :=
  output_prefix +:+ "_complete.csv".

(** The A->B and B->A files (lines 216-229). *)
Definition save_chains (output_prefix : string) (combined_df : frame)
    : list action :=
  if has_column "Chn1" combined_df && has_column "Chn2" combined_df then
    let ab_df := chain_rows "A" "B" combined_df in
    let ba_df := chain_rows "B" "A" combined_df in
    (if negb (empty ab_df)
     then [ToCsv (ab_file output_prefix) ab_df;
           Print (SavedAB (len ab_df) (ab_file output_prefix))]
     else [])
    ++ (if negb (empty ba_df)
        then [ToCsv (ba_file output_prefix) ba_df;
              Print (SavedBA (len ba_df) (ba_file output_prefix))]
        else [])
  else [].

(** Everything under [if 'Type' in combined_df.columns] (lines 202-229). *)
Definition save_by_type (output_prefix : string) (combined_df : frame)
    : list action :=
  if has_column "Type" combined_df then
    let actual_types := unique (column "Type" combined_df) in
    Print (FoundTypes actual_types)
    :: save_types output_prefix combined_df actual_types
    ++ save_chains output_prefix combined_df
  else [].

(** The write phase for a combined table (lines 198-234). *)
Definition save_results (output_prefix : string) (combined_df : frame)
    : list action :=
  save_by_type output_prefix combined_df
  ++ [ToCsv (complete_file output_prefix) combined_df;
      Print (SavedComplete (len combined_df) (complete_file output_prefix))].

(** How far a sequence of calls got: whether a [to_csv] raised, the
    [to_csv] calls that returned, the lines printed and the world. *)
Record Performed : Type := {
  raised : bool;
  files_done : list (string * frame);
  lines_done : list msg;
  world_done : World
}.

(** The calls are made in order; the first [to_csv] that raises ends the
    sequence, nothing after it is printed or written. *)
Fixpoint perform (w : World) (script : list action) : Performed :=
  match script with
  | [] => {| raised := false; files_done := []; lines_done := []; world_done := w |}
  | Print m :: rest =>
      let r := perform w rest in
      {| raised := raised r; files_done := files_done r;
         lines_done := m :: lines_done r; world_done := world_done r |}
  | ToCsv output_file df :: rest =>
      match to_csv w output_file df with
      | Some w1 =>
          let r := perform w1 rest in
          {| raised := raised r; files_done := (output_file, df) :: files_done r;
             lines_done := lines_done r; world_done := world_done r |}
      | None =>
          {| raised := true; files_done := []; lines_done := []; world_done := w |}
      end
  end.

Definition exit_with (status : Z) (log : list msg) (w : World)
    : Outcome number World :=
  {| exit_status := status; printed := log; written := []; world_after := w |}.

(** [sys.exit(1)] ends the process with status 1, and so does an
    exception that nothing catches (from [os.listdir] in
    [find_boltz_structures], from [to_csv] in the write phase); running
    off the end of [main] ends it with status 0. *)
Definition main (w : World) (args : Args number) : Outcome number World :=
  if negb (path_exists w (out_dir args))
  then exit_with 1 [OutDirNotFound (out_dir args)] w
  else if negb (path_exists w (ipsae_script args))
  then exit_with 1 [ScriptNotFound (ipsae_script args)] w
  else
    match find_boltz_structures w (out_dir args) with
    | None => exit_with 1 [FindingPairs] w
    | Some (structure_pairs, log0) =>
        match structure_pairs with
        | [] => exit_with 1 (FindingPairs :: log0 ++ [NoPairsFound]) w
        | _ :: _ =>
            let '(w1, all_results, log1) :=
              process_pairs args (length structure_pairs) 1 structure_pairs w [] in
            let log := FindingPairs :: log0
                       ++ FoundPairs (length structure_pairs) :: log1 in
            match all_results with
            | [] => exit_with 0 (log ++ [NoResults]) w1
            | _ :: _ =>
                let combined_df := concat all_results in
                let r :=
                  perform w1
                    (Print (Combined (len combined_df) (length all_results))
                     :: save_results (output_prefix args) combined_df) in
                {| exit_status := if raised r then 1 else 0;
                   printed := log ++ lines_done r;
                   written := files_done r;
                   world_after := world_done r |}
            end
        end
    end.

End Script.

(** ** Observations on a run *)

Section Observations.
Context {number World : Type} {number_ops : PyNumber number}
  {platform : Platform number World}.

Local Abbreviation cellT := (scalar number).
Local Abbreviation frame := (DataFrame number).

(** The pairs a run of the discovery returns, and the lines it prints:
    none when [os.listdir] raises. *)
Definition discovered_pairs (w : World) (out_dir : string) : list pair :=
  match find_boltz_structures w out_dir with
  | Some (structure_pairs, _) => structure_pairs
  | None => []
  end.

Definition discovery_log (w : World) (out_dir : string) : list (message number) :=
  match find_boltz_structures w out_dir with
  | Some (_, log) => log
  | None => []
  end.

(** What the two loops of the discovery go through: for every entry of
    [folders] that is a directory, the paths [glob.glob] returned for the
    pattern of that entry, each with the path and the name of the
    entry. *)
Definition searched (w : World) (predictions_dir : string) (folders : list string)
    : list (string * string * string) :=
  mjoin ((λ input_folder,
            let input_path := OsPath.join predictions_dir input_folder in
            if path_isdir w input_path
            then (λ pae_file, (input_path, input_folder, pae_file))
                   <$> glob w (pae_pattern input_path input_folder)
            else [])
         <$> folders).

(** Whether the test of line 53 succeeds for a path that was searched. *)
Definition cif_found (w : World) (c : string * string * string) : bool :=
  let '(input_path, input_folder, pae_file) := c in
  path_exists w (cif_path input_path input_folder pae_file).

(** The pair the discovery builds for a path that was searched. *)
Definition pair_of (c : string * string * string) : pair :=
  let '(input_path, input_folder, pae_file) := c in
  (pae_file, cif_path input_path input_folder pae_file, input_folder).

Definition is_cif_warning (m : message number) : bool :=
  match m with
  | WarnCifNotFound _ => true
  | _ => false
  end.

(** The number of "CIF file not found" warnings among the lines printed. *)
Definition count_warnings (log : list (message number)) : nat :=
  length (List.filter is_cif_warning log).

(** An invocation that did not succeed: the command ended with a
    non-zero status, or running it raised. *)
Definition invocation_failed (c : completed) : Prop :=
  match c with
  | Exited returncode _ _ => returncode ≠ 0%Z
  | Raised _ => True
  end.

(** The messages of [parse_ipsae_output] for an outcome of [read_csv]. *)
Definition parse_log (txt_file : string) (r : parsed number) : list (message number) :=
  match r with
  | Table _ => []
  | ParseError e => [ErrorParsing txt_file e]
  end.

(** An outcome of [read_csv] that gives [main] nothing to collect: an
    exception, or a table with a header and no data row. *)
Definition unusable (r : parsed number) : Prop :=
  match r with
  | Table df => rows df = []
  | ParseError _ => True
  end.

(** The tables a run collects in [all_results]: none when the run stops
    before the loop over the pairs. *)
Definition produced_tables (w : World) (args : Args number) : list frame :=
  if negb (path_exists w (out_dir args)) then []
  else if negb (path_exists w (ipsae_script args)) then []
  else
    let structure_pairs := discovered_pairs w (out_dir args) in
    (process_pairs args (length structure_pairs) 1 structure_pairs w []).1.2.

(** The [to_csv] calls of a sequence of calls, and the lines it prints. *)
Definition writes_of (script : list (action (number:=number)))
    : list (string * frame) :=
  omap (λ a, match a with ToCsv output_file df => Some (output_file, df)
                        | Print _ => None end) script.

(** The [to_csv] calls a run makes if none of them raises: those of the
    write phase for the combined table, when a table was collected. *)
Definition planned_writes (w : World) (args : Args number)
    : list (string * frame) :=
  match produced_tables w args with
  | [] => []
  | _ :: _ =>
      writes_of (save_results (output_prefix args)
                   (concat (produced_tables w args)))
  end.

(** The world the write phase starts in: the one the loop over the pairs
    leaves. *)
Definition world_after_loop (w : World) (args : Args number) : World :=
  let structure_pairs := discovered_pairs w (out_dir args) in
  (process_pairs args (length structure_pairs) 1 structure_pairs w []).1.1.

(** The write phase of a run that collected a table (lines 194-234). *)
Definition write_phase (w : World) (args : Args number)
    : Performed (number:=number) (World:=World) :=
  let combined_df := concat (produced_tables w args) in
  perform (world_after_loop w args)
    (Print (Combined (len combined_df) (length (produced_tables w args)))
     :: save_results (output_prefix args) combined_df).

(** Whether a [to_csv] call of the run raised. *)
Definition to_csv_raised (w : World) (args : Args number) : bool :=
  match produced_tables w args with
  | [] => false
  | _ :: _ => raised (write_phase w args)
  end.

(** A table collected for one of the pairs [ps]: a parsed report with its
    metadata columns set. *)
Definition collected_from (ps : list pair) (df : frame) : Prop :=
  ∃ pae cif name df0, (pae, cif, name) ∈ ps
    ∧ df = add_metadata (pae, cif, name) df0.

(** The files on disk after a sequence of [to_csv] calls: a later write
    to a name replaces an earlier one. *)
Definition files_after (writes : list (string * frame)) : gmap string frame :=
  foldl (λ files wr, <[wr.1 := wr.2]> files) ∅ writes.

(** The row count of the file [name] among [files]; 0 when there is no
    such file. *)
Definition rows_in (files : gmap string frame) (name : string) : nat :=
  from_option len 0%nat (files !! name).

(** The number of elements of [l] that satisfy [f]. *)
Definition count {A : Type} (f : A → bool) (l : list A) : nat :=
  length (List.filter f l).

(** The interaction types that get a file: the distinct values of the
    [Type] column other than the missing value. *)
Definition present_types (df : frame) : list cellT :=
  List.filter (λ v, negb (is_missing v)) (unique (column "Type" df)).

(** No two elements of the list are the same value. *)
Fixpoint distinct (l : list cellT) : Prop :=
  match l with
  | [] => True
  | v :: l' => (∀ u, u ∈ l' → same_value u v = false) ∧ distinct l'
  end.

End Observations.

(** ** A concrete platform for examples *)

Module Sim.

(** Python numbers that are an [int], or a [float] with an integral value
    below 10^16 in magnitude, which [str] renders with a trailing [.0]. *)
Inductive num : Type :=
  | Int (z : Z)
  | Whole (z : Z).

Definition num_value (x : num) : Z :=
  match x with
  | Int z => z
  | Whole z => z
  end.

(** The cells [pd.concat(dfs)] puts together under column [c]: those of
    the tables that have the column, and a missing value for every row
    of a table that has not. *)
Definition pieces (dfs : list (DataFrame num)) (c : string) : list (scalar num) :=
  mjoin ((λ df, if has_column c df then column c df
                else (λ _, NaN) <$> rows df) <$> dfs).

(** A column of numbers turns into [float] when one of its cells is
    missing or is a [float]; a column that holds a string keeps its
    values (dtype [object]). *)
Definition turns_float (dfs : list (DataFrame num)) (c : string) : bool :=
  forallb (λ v, match v with Str _ => false | _ => true end) (pieces dfs c)
  && existsb (λ v, match v with NaN | Num (Whole _) => true | _ => false end)
       (pieces dfs c).

Definition cast (dfs : list (DataFrame num)) (c : string) (x : num) : num :=
  if turns_float dfs c then Whole (num_value x) else x.

#[global] Instance num_number : PyNumber num := {|
  number_eqb x y := (num_value x =? num_value y)%Z;
  number_str x :=
    match x with
    | Int z => pretty z
    | Whole z => pretty z +:+ ".0"
    end;
  concat_cast := cast
|}.

(** What the external tool does for a command: how it ends and which
    paths it creates. *)
Definition tool_model : Type := list string -> completed * list string.

(** A world given by tables: the paths that exist, the directories among
    them, the listing of each directory, the matches of each glob
    pattern, the files that parse as a report, and the external tool.
    A directory can be listed, anything else makes [os.listdir] raise; a
    file can be written when its directory exists (the current directory
    always does). *)
Record world : Type := {
  paths : list string;
  dirs : list string;
  listings : list (string * list string);
  matches : list (string * list string);
  reports : list (string * DataFrame num);
  tool : tool_model
}.

Definition assoc {A : Type} (k : string) (l : list (string * A)) : option A :=
  snd <$> List.find (λ kv, String.eqb k kv.1) l.

Definition mem (p : string) (l : list string) : bool :=
  existsb (String.eqb p) l.

Definition run (w : world) (cmd : list string) : completed * world :=
  let '(c, created) := tool w cmd in
  (c, {| paths := created ++ paths w; dirs := dirs w; listings := listings w;
         matches := matches w; reports := reports w; tool := tool w |}).

Definition unlink (w : world) (p : string) : world :=
  {| paths := List.filter (λ q, negb (String.eqb p q)) (paths w);
     dirs := dirs w; listings := listings w; matches := matches w;
     reports := reports w; tool := tool w |}.

Definition entries (w : world) (p : string) : option (list string) :=
  if mem p (dirs w) then Some (default [] (assoc p (listings w))) else None.

Definition write (w : world) (p : string) (df : DataFrame num) : option world :=
  if String.eqb (OsPath.dirname p) EmptyString || mem (OsPath.dirname p) (dirs w)
  then Some {| paths := p :: paths w; dirs := dirs w; listings := listings w;
               matches := matches w; reports := reports w; tool := tool w |}
  else None.

Definition parse (w : world) (p : string) : parsed num :=
  if mem p (paths w) then
    match assoc p (reports w) with
    | Some df => Table df
    | None => ParseError "Error tokenizing data"
    end
  else ParseError "No such file or directory".

#[global] Instance platform : Platform num world := {|
  path_exists w p := mem p (paths w);
  path_isdir w p := mem p (dirs w);
  listdir := entries;
  glob w pat := default [] (assoc pat (matches w));
  subprocess_run := run;
  read_csv := parse;
  remove := unlink;
  to_csv := write
|}.

(** A row from its cells. *)
Definition row (cells : list (string * scalar num)) : gmap string (scalar num) :=
  list_to_map cells.

End Sim.

(** ** The naming convention, as the specification words it

    Following the specification: for each immediate subdirectory
    ([groupName]) of [predictions], the files matching
    [pae_<groupName>_model_*.npz]; for each, the [model_*] suffix left by
    stripping the fixed prefix and suffix, and the sibling file
    [<groupName>_<model_*>.cif] in the same subdirectory. The layout is
    read off the listings of a world of [Sim]. *)

Module Convention.
Import Sim.

(** [s] without the prefix [p], when it starts with it. *)
Definition strip_prefix (p s : string) : option string :=
  if PyStr.startswith p s then Some (PyStr.drop (String.length p) s) else None.

(** [s] without the suffix [suffix], when it ends with it. *)
Definition strip_suffix (suffix s : string) : option string :=
  let n := (String.length s - String.length suffix)%nat in
  if (String.length suffix <=? String.length s)%nat
     && String.eqb (PyStr.drop n s) suffix
  then Some (PyStr.take n s)
  else None.

(** The [model_*] suffix of a file name of the form
    [pae_<group>_model_*.npz]. *)
Definition model_suffix (group file : string) : option string :=
  match strip_prefix ("pae_" +:+ group +:+ "_") file with
  | Some rest =>
      match strip_suffix ".npz" rest with
      | Some model => if PyStr.startswith "model_" model then Some model else None
      | None => None
      end
  | None => None
  end.

Definition files_in (w : world) (dir : string) : list string :=
  default [] (assoc dir (listings w)).

(** The immediate subdirectories of [predictions]. *)
Definition groups (w : world) (out_dir : string) : list string :=
  let predictions_dir := OsPath.join out_dir "predictions" in
  List.filter (λ group, mem (OsPath.join predictions_dir group) (dirs w))
    (files_in w predictions_dir).

(** The PAE files of the layout: group, file name and [model_*] suffix. *)
Definition pae_files (w : world) (out_dir : string)
    : list (string * string * string) :=
  let predictions_dir := OsPath.join out_dir "predictions" in
  mjoin ((λ group,
            omap (λ file, (λ model, (group, file, model)) <$> model_suffix group file)
              (files_in w (OsPath.join predictions_dir group)))
         <$> groups w out_dir).

(** Whether the sibling CIF file of a PAE file is in the same
    subdirectory. *)
Definition has_sibling_cif (w : world) (out_dir : string)
    (f : string * string * string) : bool :=
  let '(group, _, model) := f in
  mem (group +:+ "_" +:+ model +:+ ".cif")
    (files_in w (OsPath.join (OsPath.join out_dir "predictions") group)).

(** N: the PAE files with their CIF file; M: those without. *)
Definition well_formed (w : world) (out_dir : string) : nat :=
  length (List.filter (has_sibling_cif w out_dir) (pae_files w out_dir)).

Definition malformed (w : world) (out_dir : string) : nat :=
  length (List.filter (λ f, negb (has_sibling_cif w out_dir f)) (pae_files w out_dir)).

End Convention.

(** ** Scenarios *)

Module Scenario.
Import Sim.

(** The report of the tool for one model: header [Chn1 Chn2 Type Score]
    and one data row [A B asym 1]. *)
Definition report : DataFrame num :=
  {| columns := ["Chn1"; "Chn2"; "Type"; "Score"];
     rows := [row [("Chn1", Str "A"); ("Chn2", Str "B");
                   ("Type", Str "asym"); ("Score", Num (Int 1))]] |}.

(** A report with the header line only. *)
Definition header_only : DataFrame num :=
  {| columns := ["Chn1"; "Chn2"; "Type"; "Score"]; rows := [] |}.

(** A report without a [Type] column: header [Chn1 Chn2 Score] and the
    data row [A B 1]. *)
Definition report_no_type : DataFrame num :=
  {| columns := ["Chn1"; "Chn2"; "Score"];
     rows := [row [("Chn1", Str "A"); ("Chn2", Str "B"); ("Score", Num (Int 1))]] |}.

(** A report with the data rows [A B asym 1] and [B A NA 2]; the parser
    reads the field [NA] as the missing value. *)
Definition report_missing_type : DataFrame num :=
  {| columns := ["Chn1"; "Chn2"; "Type"; "Score"];
     rows := [row [("Chn1", Str "A"); ("Chn2", Str "B");
                   ("Type", Str "asym"); ("Score", Num (Int 1))];
              row [("Chn1", Str "B"); ("Chn2", Str "A");
                   ("Type", NaN); ("Score", Num (Int 2))]] |}.

Definition pae0 : string := "out/predictions/foo/pae_foo_model_0.npz".
Definition cif0 : string := "out/predictions/foo/foo_model_0.cif".
Definition pae1 : string := "out/predictions/foo/pae_foo_model_1.npz".
Definition txt0 : string := "out/predictions/foo/foo_model_0_15.0_15.0.txt".
Definition txt0_cwd : string := "foo_model_0_15.0_15.0.txt".

(** [out/predictions/foo/] holds [pae_foo_model_0.npz] with
    [foo_model_0.cif], and [pae_foo_model_1.npz] without a CIF file. *)
Definition layout (t : tool_model) (parseable : list (string * DataFrame num))
    : world :=
  {| paths := ["out"; "ipsae.py"; "out/predictions"; "out/predictions/foo";
               pae0; cif0; pae1];
     dirs := ["out"; "out/predictions"; "out/predictions/foo"];
     listings := [("out/predictions", ["foo"]);
                  ("out/predictions/foo",
                   ["pae_foo_model_0.npz"; "foo_model_0.cif"; "pae_foo_model_1.npz"])];
     matches := [("out/predictions/foo/pae_foo_model_*.npz", [pae0; pae1])];
     reports := parseable;
     tool := t |}.

(** The tool writes its report next to the structure file. *)
Definition tool_ok : tool_model :=
  λ cmd, (Exited 0 EmptyString EmptyString, [txt0]).

(** The tool exits with status 1 and writes nothing. *)
Definition tool_fails : tool_model :=
  λ cmd, (Exited 1 EmptyString "Traceback", []).

(** The tool writes its report into the current directory. *)
Definition tool_cwd : tool_model :=
  λ cmd, (Exited 0 EmptyString EmptyString, [txt0_cwd]).

Definition world_ok : world := layout tool_ok [(txt0, report)].
Definition world_fails : world := layout tool_fails [].
Definition world_header_only : world := layout tool_cwd [(txt0_cwd, header_only)].
Definition world_no_type : world := layout tool_ok [(txt0, report_no_type)].
Definition world_missing_type : world := layout tool_ok [(txt0, report_missing_type)].

(** The report has the data rows [A B complete 1] and [B A asym 2]: one
    interaction type is spelled [complete]. *)
Definition report_type_complete : DataFrame num :=
  {| columns := ["Chn1"; "Chn2"; "Type"; "Score"];
     rows := [row [("Chn1", Str "A"); ("Chn2", Str "B");
                   ("Type", Str "complete"); ("Score", Num (Int 1))];
              row [("Chn1", Str "B"); ("Chn2", Str "A");
                   ("Type", Str "asym"); ("Score", Num (Int 2))]] |}.

Definition world_type_complete : world := layout tool_ok [(txt0, report_type_complete)].

(** [predictions] is a file, not a directory. *)
Definition world_not_dir : world :=
  {| paths := ["out"; "ipsae.py"; "out/predictions"]; dirs := ["out"];
     listings := []; matches := []; reports := []; tool := tool_fails |}.

(** [out/predictions/a/] holds [pae_a_model_2.npz.npz] and
    [a_model_2.cif]; the pattern [pae_a_model_*.npz] matches the first. *)
Definition world_npz_twice : world :=
  {| paths := ["out"; "ipsae.py"; "out/predictions"; "out/predictions/a";
               "out/predictions/a/pae_a_model_2.npz.npz";
               "out/predictions/a/a_model_2.cif"];
     dirs := ["out"; "out/predictions"; "out/predictions/a"];
     listings := [("out/predictions", ["a"]);
                  ("out/predictions/a", ["pae_a_model_2.npz.npz"; "a_model_2.cif"])];
     matches := [("out/predictions/a/pae_a_model_*.npz",
                  ["out/predictions/a/pae_a_model_2.npz.npz"])];
     reports := [];
     tool := tool_fails |}.

(** [out/predictions/] holds the folders [foo[1]] and [foo1]. The pattern
    of the first, [out/predictions/foo[1]/pae_foo[1]_model_*.npz], reads
    [[1]] as a character class and matches the PAE file of the second;
    the folder [foo[1]] holds a file named [foo[1]_pae_foo1_model_0.cif]. *)
Definition world_bracket : world :=
  {| paths := ["out"; "ipsae.py"; "out/predictions";
               "out/predictions/foo[1]"; "out/predictions/foo1";
               "out/predictions/foo1/pae_foo1_model_0.npz";
               "out/predictions/foo[1]/foo[1]_pae_foo1_model_0.cif"];
     dirs := ["out"; "out/predictions";
              "out/predictions/foo[1]"; "out/predictions/foo1"];
     listings := [("out/predictions", ["foo[1]"; "foo1"]);
                  ("out/predictions/foo[1]", ["foo[1]_pae_foo1_model_0.cif"]);
                  ("out/predictions/foo1", ["pae_foo1_model_0.npz"])];
     matches := [("out/predictions/foo[1]/pae_foo[1]_model_*.npz",
                  ["out/predictions/foo1/pae_foo1_model_0.npz"]);
                 ("out/predictions/foo1/pae_foo1_model_*.npz",
                  ["out/predictions/foo1/pae_foo1_model_0.npz"])];
     reports := [];
     tool := tool_fails |}.

(** A tree without [predictions]. *)
Definition world_bare : world :=
  {| paths := ["out"; "ipsae.py"]; dirs := ["out"]; listings := [];
     matches := []; reports := []; tool := tool_fails |}.

Definition args : Args num :=
  {| out_dir := "out"; ipsae_script := "ipsae.py"; pae_cutoff := Whole 15;
     dist_cutoff := Whole 15; output_prefix := "ipsae_results" |}.

(** The same with [--output_prefix nodir/res], where no directory
    [nodir] exists. *)
Definition args_nodir : Args num :=
  {| out_dir := "out"; ipsae_script := "ipsae.py"; pae_cutoff := Whole 15;
     dist_cutoff := Whole 15; output_prefix := "nodir/res" |}.

(** The combined tables of the runs on [world_no_type] and
    [world_missing_type]. *)
Definition combined_no_type : DataFrame num :=
  concat (produced_tables world_no_type args).

Definition combined_missing_type : DataFrame num :=
  concat (produced_tables world_missing_type args).

Definition combined_type_complete : DataFrame num :=
  concat (produced_tables world_type_complete args).

(** Two tables without a column in common. *)
Definition left_table : DataFrame num :=
  {| columns := ["a"]; rows := [row [("a", Num (Int 1))]] |}.

Definition right_table : DataFrame num :=
  {| columns := ["b"]; rows := [row [("b", Str "x")]] |}.

(** A table whose [Type] column holds the integer 1. *)
Definition int_type_table : DataFrame num :=
  {| columns := ["Type"]; rows := [row [("Type", Num (Int 1))]] |}.

End Scenario.

(** ** Further observations *)

Section MoreObservations.
Context {number World : Type} {number_ops : PyNumber number}
  {platform : Platform number World}.

Definition is_running (m : message number) : bool :=
  match m with
  | Running _ => true
  | _ => false
  end.

(** The "Running: ..." line of the invocation for a pair. *)
Definition running_line (args : Args number) (p : pair) : message number :=
  let '(pae_file, cif_file, _) := p in
  Running (PyStr.join " "
             (command (ipsae_script args) pae_file cif_file
                (pae_cutoff args) (dist_cutoff args))).

(** The separator does not occur in [s] ([s.rfind("/")] is -1). *)
Definition no_slash (s : string) : Prop := PyStr.after_last OsPath.sep s = 0%nat.

(** A table of [all_results]: a non-empty parsed table with its metadata. *)
Definition well_collected (ps : list pair) (df : DataFrame number) : Prop :=
  ∃ p df0, p ∈ ps ∧ empty df0 = false ∧ df = add_metadata p df0.

End MoreObservations.

(** ** More scenarios *)

Module MoreScenarios.
Import Sim Scenario.

(** The tool leaves a report with one data row in the current directory. *)
Definition world_cwd : world := layout tool_cwd [(txt0_cwd, report)].

(** A table with one row per pair of chains among [A] and [B]. *)
Definition chains_table : DataFrame num :=
  {| columns := ["Chn1"; "Chn2"; "Type"];
     rows := [row [("Chn1", Str "A"); ("Chn2", Str "B"); ("Type", Str "asym")];
              row [("Chn1", Str "B"); ("Chn2", Str "A"); ("Type", Str "asym")];
              row [("Chn1", Str "A"); ("Chn2", Str "A"); ("Type", Str "max")]] |}.

End MoreScenarios.

(** * Properties *)

(** ** Strings and paths *)

Example basename_ex :
  OsPath.basename "out/predictions/foo/foo_model_0.cif" = "foo_model_0.cif".
Proof. reflexivity. Qed.

Example dirname_ex :
  OsPath.dirname "out/predictions/foo/foo_model_0.cif" = "out/predictions/foo".
Proof. reflexivity. Qed.

Example dirname_bare : OsPath.dirname "foo_model_0_15.0_15.0.txt" = EmptyString.
Proof. reflexivity. Qed.

Example splitext_ex :
  OsPath.splitext "foo_model_0.cif" = ("foo_model_0", ".cif").
Proof. reflexivity. Qed.

Example splitext_hidden : OsPath.splitext "dir/.bashrc" = ("dir/.bashrc", EmptyString).
Proof. reflexivity. Qed.

Example join_ex : OsPath.join "out" "predictions" = "out/predictions".
Proof. reflexivity. Qed.

Example join_slash : OsPath.join "out/" "predictions" = "out/predictions".
Proof. reflexivity. Qed.

Example remove_all_ex :
  PyStr.remove_all ".npz" (PyStr.remove_all "pae_foo_" "pae_foo_model_0.npz")
  = "model_0".
Proof. reflexivity. Qed.

Example remove_all_inner :
  PyStr.remove_all "pae_a_" "pae_a_model_pae_a_1.npz" = "model_1.npz".
Proof. reflexivity. Qed.

(** ** Facts about strings *)

Lemma append_nil (t : string) : EmptyString +:+ t = t.
Proof. reflexivity. Qed.

Lemma append_cons (a : Ascii.ascii) (s t : string) :
  String a s +:+ t = String a (s +:+ t).
Proof. reflexivity. Qed.

Lemma append_nonempty_r (s t : string) : t ≠ EmptyString → s +:+ t ≠ EmptyString.
Proof. destruct s; [by rewrite append_nil | by rewrite append_cons]. Qed.

Lemma append_length (s t : string) :
  String.length (s +:+ t) = (String.length s + String.length t)%nat.
Proof.
  induction s as [|a s IH]; [done |].
  rewrite append_cons. simpl. by rewrite IH.
Qed.

Lemma append_inj_r (t s1 s2 : string) : s1 +:+ t = s2 +:+ t → s1 = s2.
Proof.
  revert s2. induction s1 as [|a s1 IH]; intros [|b s2] Heq.
  - done.
  - apply (f_equal String.length) in Heq.
    rewrite !append_length in Heq. simpl in Heq. lia.
  - apply (f_equal String.length) in Heq.
    rewrite !append_length in Heq. simpl in Heq. lia.
  - rewrite !append_cons in Heq. injection Heq as -> Heq. f_equal. by apply IH.
Qed.

Lemma append_assoc (s t u : string) : (s +:+ t) +:+ u = s +:+ (t +:+ u).
Proof.
  induction s as [|a s IH]; [done |].
  by rewrite !append_cons, IH.
Qed.

Section Invocation.
Context {number World : Type} {number_ops : PyNumber number}
  {platform : Platform number World}.

Lemma join_nonempty (a b : string) : b ≠ EmptyString → OsPath.join a b ≠ EmptyString.
Proof.
  intros Hb. unfold OsPath.join.
  destruct (PyStr.startswith "/" b); [done |].
  destruct (_ || _).
  - by apply append_nonempty_r.
  - apply append_nonempty_r. by rewrite append_cons.
Qed.

Lemma expected_output_nonempty (cif_file : string) (pc dc : number) :
  expected_output cif_file pc dc ≠ EmptyString.
Proof.
  unfold expected_output. apply append_nonempty_r. by rewrite append_cons.
Qed.

(** [run_ipsae] never returns an empty path, so [if output_txt:] only
    tests for [None]. *)
Lemma run_ipsae_path_nonempty (w : World) (script pae cif : string)
    (pc dc : number) (txt : string) (w1 : World) (log : list (message number)) :
  run_ipsae w script pae cif pc dc = (Some txt, w1, log) → txt ≠ EmptyString.
Proof.
  unfold run_ipsae.
  destruct (subprocess_run _ _) as [[rc out err|e] w'];
    [destruct (rc =? 0)%Z |]; [| done | done].
  destruct (path_exists w' (expected_output _ _ _)).
  - intros [= <- _ _]. apply expected_output_nonempty.
  - destruct (path_exists w' (OsPath.join _ _)); [| done].
    intros [= <- _ _]. apply join_nonempty, expected_output_nonempty.
Qed.

(** C3: after a successful invocation the report is looked for under the
    name [<stem>_<a>_<b>.txt], where [<stem>] is the base name of the
    structure file without its extension and [a], [b] are the very
    strings passed to the command as cutoffs; first in the current
    directory, then beside the structure file. The first path that exists
    is returned; with neither, the result is [None] and a warning is
    printed. *)
Theorem run_ipsae_locates_report (w : World) (script pae cif : string)
    (pc dc : number) (stdout stderr : string) (w1 : World) :
  subprocess_run w (command script pae cif pc dc) = (Exited 0 stdout stderr, w1) →
  ∃ a b : string,
    command script pae cif pc dc = ["python"; script; pae; cif; a; b]
    ∧ let name := (OsPath.splitext (OsPath.basename cif)).1
                    +:+ "_" +:+ a +:+ "_" +:+ b +:+ ".txt" in
      let beside := OsPath.join (OsPath.dirname cif) name in
      ∃ log,
        run_ipsae w script pae cif pc dc
        = (if path_exists w1 name then Some name
           else if path_exists w1 beside then Some beside
           else None, w1, log)
        ∧ (path_exists w1 name = false → path_exists w1 beside = false →
           WarnOutputNotFound name ∈ log).
Proof.
  intros Hrun. exists (number_str pc), (number_str dc). split; [done |].
  unfold run_ipsae. rewrite Hrun. simpl. fold (expected_output cif pc dc).
  destruct (path_exists w1 (expected_output cif pc dc)); [by eexists |].
  destruct (path_exists w1 (OsPath.join _ _)); [by eexists |].
  eexists. split; [done |]. intros _ _. set_solver.
Qed.

End Invocation.

Section ExitStatus.
Context {number World : Type} {number_ops : PyNumber number}
  {platform : Platform number World}.

Lemma find_without_predictions (w : World) (out_dir : string) :
  path_exists w (OsPath.join out_dir "predictions") = false →
  find_boltz_structures w out_dir
  = Some ([], [PredictionsNotFound (OsPath.join out_dir "predictions")]).
Proof. intros Hp. unfold find_boltz_structures. by rewrite Hp. Qed.

Lemma main_without_pairs (w : World) (args : Args number) :
  discovered_pairs w (out_dir args) = [] →
  exit_status (main w args) = 1%Z ∧ written (main w args) = []
  ∧ world_after (main w args) = w.
Proof.
  unfold discovered_pairs, main. intros Hnone.
  destruct (negb (path_exists w (out_dir args))); [done |].
  destruct (negb (path_exists w (ipsae_script args))); [done |].
  destruct (find_boltz_structures w (out_dir args)) as [[ps log0]|]; [| done].
  by subst ps.
Qed.

(** C5: when the [predictions] subdirectory is absent or no structure
    pair is discovered, the process ends with a non-zero exit status (1)
    and has written no output file; the external tool was not run, so the
    world is as it was. *)
Theorem no_pairs_exit_nonzero (w : World) (args : Args number) :
  path_exists w (OsPath.join (out_dir args) "predictions") = false
  ∨ discovered_pairs w (out_dir args) = [] →
  exit_status (main w args) ≠ 0%Z
  ∧ exit_status (main w args) = 1%Z
  ∧ written (main w args) = []
  ∧ world_after (main w args) = w.
Proof.
  intros Hcase.
  assert (discovered_pairs w (out_dir args) = []) as Hnone.
  { destruct Hcase as [Habsent | Hnone]; [| done].
    unfold discovered_pairs. by rewrite find_without_predictions. }
  destruct (main_without_pairs w args Hnone) as (Hexit & Hfiles & Hworld).
  rewrite Hexit. done.
Qed.

(** C2 (amended): a run that collects no table writes no output file;
    when the output directory and the script exist and at least one pair
    was discovered, such a run prints "No results to save!" last and ends
    with exit status 0. *)
Theorem no_tables_no_files (w : World) (args : Args number) :
  produced_tables w args = [] →
  written (main w args) = []
  ∧ (path_exists w (out_dir args) = true →
     path_exists w (ipsae_script args) = true →
     discovered_pairs w (out_dir args) ≠ [] →
     exit_status (main w args) = 0%Z
     ∧ last (printed (main w args)) = Some NoResults).
Proof.
  unfold produced_tables, discovered_pairs, main.
  destruct (path_exists w (out_dir args)); simpl; [| done].
  destruct (path_exists w (ipsae_script args)); simpl; [| done].
  destruct (find_boltz_structures w (out_dir args)) as [[ps log0]|]; [| done].
  destruct ps as [|p ps]; [done |].
  destruct (process_pairs _ _ _ _ _ _) as [[w1 res] log1]; simpl.
  intros ->. split; [done |]. intros _ _ _. split; [done |].
  simpl. rewrite app_comm_cons. apply last_snoc.
Qed.

End ExitStatus.

Section Loop.
Context {number World : Type} {number_ops : PyNumber number}
  {platform : Platform number World}.

Lemma process_pairs_cons (args : Args number) (total i : nat) (p : pair)
    (rest : list pair) (w : World) (all_results : list (DataFrame number)) :
  process_pairs args total i (p :: rest) w all_results
  = let '(w1, all_results1, log1) := process_pair args total i p w all_results in
    let '(w2, all_results2, log2) :=
      process_pairs args total (S i) rest w1 all_results1 in
    (w2, all_results2, log1 ++ log2).
Proof. reflexivity. Qed.

(** C10: a report that parses to a table without data rows is handled by
    the same branch as a report that fails to parse: for either outcome
    of the parser, the iteration leaves the collected tables as they
    were (so no row and no provenance column is added), leaves the world
    as the tool left it (the clean-up is not run) and prints
    "Failed to parse results". *)
Theorem header_only_like_parse_failure (args : Args number) (total i : nat)
    (pae cif name : string) (w : World) (all_results : list (DataFrame number))
    (txt : string) (w1 : World) (log1 : list (message number)) :
  run_ipsae w (ipsae_script args) pae cif (pae_cutoff args) (dist_cutoff args)
  = (Some txt, w1, log1) →
  unusable (read_csv w1 txt) →
  process_pair args total i (pae, cif, name) w all_results
  = (w1, all_results,
     Processing i total name :: log1
       ++ parse_log txt (read_csv w1 txt) ++ [FailedToParse txt]).
Proof.
  intros Hrun Hbad. unfold process_pair. rewrite Hrun.
  pose proof (run_ipsae_path_nonempty _ _ _ _ _ _ _ _ _ Hrun) as Hne.
  apply String.eqb_neq in Hne. rewrite Hne.
  unfold parse_ipsae_output.
  destruct (read_csv w1 txt) as [df|e]; simpl in *; [| done].
  unfold empty. rewrite Hbad. by destruct (columns df).
Qed.

(** C6: when the external command ends with a non-zero status, or the
    invocation raises, [run_ipsae] returns [None] (printing the captured
    stdout and stderr in the first case); the iteration adds nothing to
    the collected tables, and the loop goes on with the remaining pairs
    from the world the command left. *)
Theorem failed_invocation_contained (args : Args number) (total i : nat)
    (pae cif name : string) (rest : list pair) (w : World)
    (all_results : list (DataFrame number)) (c : completed) (w1 : World) :
  subprocess_run w
    (command (ipsae_script args) pae cif (pae_cutoff args) (dist_cutoff args))
  = (c, w1) →
  invocation_failed c →
  ∃ log1,
    run_ipsae w (ipsae_script args) pae cif (pae_cutoff args) (dist_cutoff args)
    = (None, w1, log1)
    ∧ (∀ rc out err, c = Exited rc out err → Stdout out ∈ log1 ∧ Stderr err ∈ log1)
    ∧ process_pair args total i (pae, cif, name) w all_results
      = (w1, all_results, Processing i total name :: log1 ++ [FailedToGenerate])
    ∧ process_pairs args total i ((pae, cif, name) :: rest) w all_results
      = let '(w2, results, log2) :=
          process_pairs args total (S i) rest w1 all_results in
        (w2, results, (Processing i total name :: log1 ++ [FailedToGenerate]) ++ log2).
Proof.
  intros Hrun Hfail.
  assert (∃ log1,
    run_ipsae w (ipsae_script args) pae cif (pae_cutoff args) (dist_cutoff args)
    = (None, w1, log1)
    ∧ (∀ rc out err, c = Exited rc out err → Stdout out ∈ log1 ∧ Stderr err ∈ log1))
    as (log1 & Hnone & Hlog).
  { unfold run_ipsae. rewrite Hrun. destruct c as [rc out err|e]; simpl in *.
    - apply Z.eqb_neq in Hfail. rewrite Hfail. eexists. split; [done |].
      intros ? ? ? [= <- <- <-]. set_solver.
    - eexists. split; [done |]. done. }
  exists log1. split; [done |]. split; [done |].
  assert (process_pair args total i (pae, cif, name) w all_results
          = (w1, all_results, Processing i total name :: log1 ++ [FailedToGenerate]))
    as Hstep.
  { unfold process_pair. by rewrite Hnone. }
  split; [done |].
  rewrite process_pairs_cons, Hstep. done.
Qed.

End Loop.

Section Discovery.
Context {number World : Type} {number_ops : PyNumber number}
  {platform : Platform number World}.

Lemma scan_pae_files_spec (w : World) (input_path input_folder : string)
    (pae_files : list string) :
  let found := (λ pae_file, (input_path, input_folder, pae_file)) <$> pae_files in
  (scan_pae_files w input_path input_folder pae_files).1
  = pair_of <$> List.filter (cif_found w) found
  ∧ count_warnings (scan_pae_files w input_path input_folder pae_files).2
    = length (List.filter (λ c, negb (cif_found w c)) found).
Proof.
  induction pae_files as [|pae_file rest [IHp IHw]]; [done |].
  simpl. destruct (scan_pae_files w input_path input_folder rest) as [ps log].
  simpl in IHp, IHw.
  destruct (path_exists w (cif_path input_path input_folder pae_file)); simpl.
  - split; [by rewrite IHp | done].
  - split; [done |]. unfold count_warnings in *. simpl. by rewrite IHw.
Qed.

Lemma count_warnings_app (l1 l2 : list (message number)) :
  count_warnings (l1 ++ l2) = (count_warnings l1 + count_warnings l2)%nat.
Proof. unfold count_warnings. by rewrite List.filter_app, length_app. Qed.

(** The bookkeeping of the two loops: one pair for every searched path
    whose CIF test succeeds, in order, and one warning for every other. *)
Lemma scan_folders_spec (w : World) (predictions_dir : string)
    (folders : list string) :
  (scan_folders w predictions_dir folders).1
  = pair_of <$> List.filter (cif_found w) (searched w predictions_dir folders)
  ∧ count_warnings (scan_folders w predictions_dir folders).2
    = length (List.filter (λ c, negb (cif_found w c))
                (searched w predictions_dir folders)).
Proof.
  unfold searched.
  induction folders as [|input_folder rest [IHp IHw]]; [done |].
  simpl. destruct (scan_folders w predictions_dir rest) as [ps log].
  simpl in IHp, IHw.
  destruct (path_isdir w (OsPath.join predictions_dir input_folder)); simpl.
  - pose proof (scan_pae_files_spec w (OsPath.join predictions_dir input_folder)
                  input_folder
                  (glob w (pae_pattern (OsPath.join predictions_dir input_folder)
                                       input_folder))) as [Hp Hw].
    destruct (scan_pae_files _ _ _ _) as [ps1 log1]. simpl in Hp, Hw. simpl.
    rewrite !List.filter_app, fmap_app, length_app. split.
    + by rewrite Hp, IHp.
    + change (ProcessingFolder input_folder :: log1 ++ log)
        with ([ProcessingFolder input_folder] ++ log1 ++ log).
      rewrite !count_warnings_app. rewrite Hw, IHw. done.
  - done.
Qed.

Lemma searched_elem (w : World) (predictions_dir : string) (folders : list string)
    (input_path input_folder pae_file : string) :
  (input_path, input_folder, pae_file) ∈ searched w predictions_dir folders →
  input_folder ∈ folders
  ∧ input_path = OsPath.join predictions_dir input_folder
  ∧ path_isdir w input_path = true
  ∧ pae_file ∈ glob w (pae_pattern input_path input_folder).
Proof.
  unfold searched.
  intros Hin. apply list_elem_of_join in Hin as (l & Hin & Hl).
  apply list_elem_of_fmap in Hl as (folder & -> & Hfolder).
  destruct (path_isdir w _) eqn:Hdir; [| by apply elem_of_nil in Hin].
  apply list_elem_of_fmap in Hin as (pae & [= -> -> ->] & Hpae). done.
Qed.

End Discovery.

Section Tables.
Context {number : Type} {number_ops : PyNumber number}.

Local Abbreviation cellT := (scalar number).
Local Abbreviation rowT := (gmap string (scalar number)).
Local Abbreviation frame := (DataFrame number).

Lemma has_column_true (c : string) (df : frame) :
  has_column c df = true ↔ c ∈ columns df.
Proof. unfold has_column. apply bool_decide_eq_true. Qed.

Lemma has_column_false (c : string) (df : frame) :
  has_column c df = false ↔ c ∉ columns df.
Proof. unfold has_column. apply bool_decide_eq_false. Qed.

Lemma reindex_lookup (cols : list string) (df : frame) (r : rowT) (c : string) :
  reindex cols df r !! c
  = if bool_decide (c ∈ cols)
    then Some (if has_column c df then cell c r else NaN)
    else None.
Proof.
  induction cols as [|c' cols IH]; simpl.
  - by rewrite lookup_empty.
  - destruct (decide (c' = c)) as [->|Hne].
    + rewrite lookup_insert_eq. rewrite bool_decide_eq_true_2; [done | set_solver].
    + rewrite lookup_insert_ne by done. rewrite IH.
      apply (f_equal (λ b : bool, if b then _ else _)).
      apply bool_decide_ext. set_solver.
Qed.

Lemma union_columns_from (acc : list string) (dfs : list frame) (c : string) :
  c ∈ foldl (λ acc df,
               acc ++ List.filter (λ c, negb (bool_decide (c ∈ acc))) (columns df))
            acc dfs
  ↔ c ∈ acc ∨ ∃ df, df ∈ dfs ∧ c ∈ columns df.
Proof.
  revert acc. induction dfs as [|df dfs IH]; intros acc; simpl.
  - set_solver.
  - rewrite IH, elem_of_app, !list_elem_of_In, List.filter_In, <- !list_elem_of_In.
    rewrite negb_true_iff, bool_decide_eq_false. split.
    + intros [[Hc | [Hc _]] | (df' & Hdf & Hc)]; [by left | right | right].
      * exists df. set_solver.
      * exists df'. set_solver.
    + intros [Hc | (df' & Hdf & Hc)]; [by left; left |].
      apply elem_of_cons in Hdf as [-> | Hdf].
      * left. destruct (decide (c ∈ acc)); [by left | by right].
      * right. by exists df'.
Qed.

Lemma union_columns_spec (dfs : list frame) (c : string) :
  c ∈ union_columns dfs ↔ ∃ df, df ∈ dfs ∧ c ∈ columns df.
Proof. unfold union_columns. rewrite union_columns_from. set_solver. Qed.

Lemma settle_row_lookup (dfs : list frame) (r : rowT) (c : string) :
  settle_row dfs r !! c = settle_cell dfs c <$> r !! c.
Proof.
  unfold settle_row. rewrite map_lookup_imap. by destruct (r !! c).
Qed.

Lemma concat_rows (dfs : list frame) (r' : rowT) :
  r' ∈ rows (concat dfs)
  ↔ ∃ df r, df ∈ dfs ∧ r ∈ rows df
            ∧ r' = settle_row dfs (reindex (union_columns dfs) df r).
Proof.
  unfold concat. simpl. rewrite list_elem_of_join. split.
  - intros (l & Hr & Hl). apply list_elem_of_fmap in Hl as (df & -> & Hdf).
    apply list_elem_of_fmap in Hr as (r & -> & Hr). by exists df, r.
  - intros (df & r & Hdf & Hr & ->).
    exists ((λ r, settle_row dfs (reindex (union_columns dfs) df r)) <$> rows df).
    split.
    + by apply (list_elem_of_fmap_2
                  (λ r, settle_row dfs (reindex (union_columns dfs) df r))).
    + by apply (list_elem_of_fmap_2
                  (λ df, (λ r, settle_row dfs (reindex (union_columns dfs) df r))
                           <$> rows df)).
Qed.

Lemma length_join_rows (f : frame → rowT → rowT) (dfs : list frame) :
  length (mjoin ((λ df, f df <$> rows df) <$> dfs)) = sum_list (len <$> dfs).
Proof.
  induction dfs as [|df dfs IH]; [done |].
  rewrite !fmap_cons. simpl mjoin. simpl sum_list.
  rewrite length_app, length_fmap, IH. done.
Qed.

Lemma concat_len (dfs : list frame) : len (concat dfs) = sum_list (len <$> dfs).
Proof.
  unfold concat, len at 1. simpl.
  apply (length_join_rows
           (λ df r, settle_row dfs (reindex (union_columns dfs) df r))).
Qed.

(** A cell kept by [concat]: a column of the table the row comes from. *)
Lemma concat_keeps_cell (dfs : list frame) (df : frame) (r : rowT) (c : string) :
  df ∈ dfs → c ∈ columns df →
  settle_row dfs (reindex (union_columns dfs) df r) !! c
  = Some (settle_cell dfs c (cell c r)).
Proof.
  intros Hdf Hc. rewrite settle_row_lookup, reindex_lookup.
  rewrite bool_decide_eq_true_2 by (apply union_columns_spec; eauto).
  by rewrite (proj2 (has_column_true c df) Hc).
Qed.

Lemma set_column_columns (c c' : string) (v : cellT) (df : frame) :
  c' ∈ columns (set_column c v df) ↔ c' = c ∨ c' ∈ columns df.
Proof.
  unfold set_column. simpl. destruct (has_column c df) eqn:Hc.
  - apply has_column_true in Hc. set_solver.
  - set_solver.
Qed.

Lemma set_column_rows (c : string) (v : cellT) (df : frame) (r : rowT) :
  r ∈ rows (set_column c v df) ↔ ∃ r0, r0 ∈ rows df ∧ r = <[c := v]> r0.
Proof. unfold set_column. simpl. rewrite list_elem_of_fmap. naive_solver. Qed.

Lemma add_metadata_columns (pae cif name : string) (df : frame) (c : string) :
  c ∈ columns (add_metadata (pae, cif, name) df)
  ↔ c = "input_name" ∨ c = "pae_file" ∨ c = "cif_file" ∨ c ∈ columns df.
Proof. unfold add_metadata. rewrite !set_column_columns. naive_solver. Qed.

Lemma add_metadata_cells (pae cif name : string) (df : frame) (r : rowT) :
  r ∈ rows (add_metadata (pae, cif, name) df) →
  cell "input_name" r = Str name
  ∧ cell "pae_file" r = Str (OsPath.basename pae)
  ∧ cell "cif_file" r = Str (OsPath.basename cif).
Proof.
  unfold add_metadata. intros Hr.
  apply set_column_rows in Hr as (r2 & Hr2 & ->).
  apply set_column_rows in Hr2 as (r1 & Hr1 & ->).
  apply set_column_rows in Hr1 as (r0 & Hr0 & ->).
  unfold cell. by simplify_map_eq.
Qed.

End Tables.

Section Provenance.
Context {number World : Type} {number_ops : PyNumber number}
  {platform : Platform number World}.

Local Abbreviation frame := (DataFrame number).

Lemma process_pair_results (args : Args number) (total i : nat) (p : pair)
    (w : World) (all_results : list frame) :
  (process_pair args total i p w all_results).1.2 = all_results
  ∨ ∃ df0, (process_pair args total i p w all_results).1.2
           = all_results ++ [add_metadata p df0].
Proof.
  unfold process_pair. destruct p as [[pae cif] name].
  destruct (run_ipsae _ _ _ _ _ _) as [[[txt|] w1] log1]; [| by left].
  destruct (String.eqb txt EmptyString); [by left |].
  destruct (parse_ipsae_output w1 txt) as [[df0|] log2]; [| by left].
  destruct (empty df0); [by left |]. right. by exists df0.
Qed.

Lemma process_pairs_results (args : Args number) (total : nat) (ps : list pair) :
  ∀ (i : nat) (w : World) (all_results : list frame),
  ∃ added, (process_pairs args total i ps w all_results).1.2 = all_results ++ added
           ∧ Forall (collected_from ps) added.
Proof.
  induction ps as [|p ps IH]; intros i w all_results.
  - exists []. by rewrite app_nil_r.
  - rewrite process_pairs_cons.
    pose proof (process_pair_results args total i p w all_results) as Hstep.
    destruct (process_pair args total i p w all_results) as [[w1 res1] log1].
    destruct (IH (S i) w1 res1) as (added & Hadded & Hall).
    destruct (process_pairs args total (S i) ps w1 res1) as [[w2 res2] log2].
    simpl in *.
    assert (Forall (collected_from (p :: ps)) added) as Hall'.
    { eapply Forall_impl; [exact Hall |].
      intros df (pae & cif & name & df0 & Hin & ->).
      exists pae, cif, name, df0. split; [by right | done]. }
    destruct Hstep as [-> | [df0 ->]].
    + by exists added.
    + exists (add_metadata p df0 :: added). split.
      * by rewrite Hadded, <- app_assoc.
      * constructor; [| done]. destruct p as [[pae cif] name].
        exists pae, cif, name, df0. split; [by left | done].
Qed.

Lemma produced_tables_collected (w : World) (args : Args number) :
  Forall (collected_from (discovered_pairs w (out_dir args)))
         (produced_tables w args).
Proof.
  unfold produced_tables.
  destruct (negb (path_exists w (out_dir args))); [constructor |].
  destruct (negb (path_exists w (ipsae_script args))); [constructor |].
  destruct (process_pairs_results args
              (length (discovered_pairs w (out_dir args)))
              (discovered_pairs w (out_dir args)) 1 w [])
    as (added & -> & Hall).
  done.
Qed.

(** C9: every row of the combined table has the columns [input_name],
    [pae_file] and [cif_file], holding the group name and the base names
    of the PAE and CIF files of one of the discovered pairs, the pair
    whose report the row was parsed from. The metadata is set after
    parsing, so it replaces whatever the report had under those names. *)
Theorem provenance_on_every_row (w : World) (args : Args number)
    (r : gmap string (scalar number)) :
  r ∈ rows (concat (produced_tables w args)) →
  ∃ pae_file cif_file input_name df0 r0,
    (pae_file, cif_file, input_name) ∈ discovered_pairs w (out_dir args)
    ∧ add_metadata (pae_file, cif_file, input_name) df0 ∈ produced_tables w args
    ∧ r0 ∈ rows df0
    ∧ r = settle_row (produced_tables w args)
            (reindex (columns (concat (produced_tables w args)))
               (add_metadata (pae_file, cif_file, input_name) df0)
               (<["cif_file" := Str (OsPath.basename cif_file)]>
                  (<["pae_file" := Str (OsPath.basename pae_file)]>
                     (<["input_name" := Str input_name]> r0))))
    ∧ r !! "input_name" = Some (Str input_name)
    ∧ r !! "pae_file" = Some (Str (OsPath.basename pae_file))
    ∧ r !! "cif_file" = Some (Str (OsPath.basename cif_file)).
Proof.
  intros Hr. apply concat_rows in Hr as (df & r1 & Hdf & Hr1 & ->).
  pose proof (produced_tables_collected w args) as Hall.
  rewrite Forall_forall in Hall.
  destruct (Hall df Hdf) as (pae & cif & name & df0 & Hin & ->).
  destruct (add_metadata_cells _ _ _ _ _ Hr1) as (Hname & Hpae & Hcif).
  assert (∃ r0, r0 ∈ rows df0
            ∧ r1 = <["cif_file" := Str (OsPath.basename cif)]>
                     (<["pae_file" := Str (OsPath.basename pae)]>
                        (<["input_name" := Str name]> r0))) as (r0 & Hr0 & Hshape).
  { unfold add_metadata in Hr1.
    apply set_column_rows in Hr1 as (r2 & Hr2 & ->).
    apply set_column_rows in Hr2 as (r3 & Hr3 & ->).
    apply set_column_rows in Hr3 as (r0 & Hr0 & ->). by exists r0. }
  exists pae, cif, name, df0, r0.
  split; [done |]. split; [done |]. split; [done |].
  split; [by rewrite Hshape |].
  rewrite !(concat_keeps_cell _ _ _ _ Hdf)
    by (apply add_metadata_columns; naive_solver).
  by rewrite Hname, Hpae, Hcif.
Qed.

End Provenance.

Section CompleteFile.
Context {number World : Type} {number_ops : PyNumber number}
  {platform : Platform number World}.

Local Abbreviation frame := (DataFrame number).
Local Abbreviation script := (list (action (number:=number))).

Lemma files_after_snoc (ws : list (string * frame)) (name : string) (df : frame) :
  files_after (ws ++ [(name, df)]) = <[name := df]> (files_after ws).
Proof. unfold files_after. by rewrite foldl_snoc. Qed.

Lemma writes_of_app (s1 s2 : script) :
  writes_of (s1 ++ s2) = writes_of s1 ++ writes_of s2.
Proof. apply omap_app. Qed.

Lemma writes_of_print (m : message number) (s : script) :
  writes_of (Print m :: s) = writes_of s.
Proof. reflexivity. Qed.

Lemma writes_of_to_csv (f : string) (df : frame) (s : script) :
  writes_of (ToCsv f df :: s) = (f, df) :: writes_of s.
Proof. reflexivity. Qed.

(** The [to_csv] calls that returned are the first calls of the
    sequence. *)
Lemma perform_prefix (w : World) (s : script) :
  files_done (perform w s) `prefix_of` writes_of s.
Proof.
  revert w. induction s as [|[m|f df] s IH]; intros w.
  - done.
  - rewrite writes_of_print. apply IH.
  - rewrite writes_of_to_csv. simpl.
    destruct (to_csv w f df) as [w1|]; simpl.
    + apply prefix_cons, IH.
    + apply prefix_nil.
Qed.

(** They are all the calls exactly when none raised. *)
Lemma perform_returns (w : World) (s : script) :
  raised (perform w s) = false → files_done (perform w s) = writes_of s.
Proof.
  revert w. induction s as [|[m|f df] s IH]; intros w.
  - done.
  - rewrite writes_of_print. apply IH.
  - rewrite writes_of_to_csv. simpl.
    destruct (to_csv w f df) as [w1|]; simpl; [| done].
    intros Hr. f_equal. by apply IH.
Qed.



Lemma save_results_writes (output_prefix : string) (combined_df : frame) :
  writes_of (save_results output_prefix combined_df)
  = writes_of (save_by_type output_prefix combined_df)
    ++ [(complete_file output_prefix, combined_df)].
Proof. unfold save_results. by rewrite writes_of_app. Qed.

(** A run that stops before the write phase, and the run of the write
    phase. *)
Lemma main_without_tables (w : World) (args : Args number) :
  produced_tables w args = [] → written (main w args) = [].
Proof.
  unfold produced_tables, discovered_pairs, main.
  destruct (negb (path_exists w (out_dir args))); [done |].
  destruct (negb (path_exists w (ipsae_script args))); [done |].
  destruct (find_boltz_structures w (out_dir args)) as [[ps log0]|]; [| done].
  destruct ps as [|p ps]; [done |].
  destruct (process_pairs _ _ _ _ _ _) as [[w1 res] log1]. simpl.
  by intros ->.
Qed.

Lemma main_with_tables (w : World) (args : Args number) :
  produced_tables w args ≠ [] →
  exit_status (main w args) = (if raised (write_phase w args) then 1 else 0)%Z
  ∧ written (main w args) = files_done (write_phase w args)
  ∧ world_after (main w args) = world_done (write_phase w args).
Proof.
  unfold write_phase, world_after_loop, produced_tables, discovered_pairs, main.
  destruct (negb (path_exists w (out_dir args))); [done |].
  destruct (negb (path_exists w (ipsae_script args))); [done |].
  destruct (find_boltz_structures w (out_dir args)) as [[ps log0]|]; [| done].
  destruct ps as [|p ps]; [done |].
  destruct (process_pairs _ _ _ _ _ _) as [[w1 res] log1]. simpl.
  destruct res as [|df res]; done.
Qed.

Lemma write_phase_prefix (w : World) (args : Args number) :
  files_done (write_phase w args)
  `prefix_of` writes_of (save_results (output_prefix args)
                           (concat (produced_tables w args))).
Proof. unfold write_phase. apply (perform_prefix _ (Print _ :: _)). Qed.

(** What a run writes are the first of the writes it sets out to make. *)
Lemma main_written_prefix (w : World) (args : Args number) :
  written (main w args) `prefix_of` planned_writes w args.
Proof.
  unfold planned_writes.
  destruct (produced_tables w args) as [|df dfs] eqn:Hp.
  - by rewrite (main_without_tables w args Hp).
  - assert (produced_tables w args ≠ []) as Hne by (by rewrite Hp).
    destruct (main_with_tables w args Hne) as (_ & -> & _).
    rewrite <- Hp. apply write_phase_prefix.
Qed.


Lemma planned_writes_with_tables (w : World) (args : Args number) :
  produced_tables w args ≠ [] →
  planned_writes w args
  = writes_of (save_results (output_prefix args) (concat (produced_tables w args))).
Proof. unfold planned_writes. by destruct (produced_tables w args). Qed.


End CompleteFile.

Section Values.
Context {number : Type} {number_ops : PyNumber number}.
Hypothesis number_eqb_refl : ∀ x : number, number_eqb x x = true.
Hypothesis number_eqb_sym : ∀ x y : number, number_eqb x y = number_eqb y x.
Hypothesis number_eqb_trans : ∀ x y z : number,
  number_eqb x y = true → number_eqb y z = true → number_eqb x z = true.

Local Abbreviation cellT := (scalar number).

Lemma same_value_refl (v : cellT) : same_value v v = true.
Proof. destruct v; simpl; [apply String.eqb_refl | apply number_eqb_refl | done]. Qed.

Lemma same_value_sym (v t : cellT) : same_value v t = same_value t v.
Proof.
  destruct v, t; simpl; auto using String.eqb_sym.
Qed.

Lemma same_value_trans (u v t : cellT) :
  same_value u v = true → same_value v t = true → same_value u t = true.
Proof.
  destruct u, v, t; simpl; try done.
  - intros ->%String.eqb_eq. done.
  - apply number_eqb_trans.
Qed.

Lemma cell_eq_same (v t : cellT) :
  cell_eq v t = if is_missing v then false else same_value v t.
Proof. by destruct v, t. Qed.

Lemma cell_eq_missing_r (v : cellT) : cell_eq v NaN = false.
Proof. by destruct v. Qed.

Lemma unique_from_elem (seen l : list cellT) (v : cellT) :
  v ∈ unique_from seen l → v ∈ l ∧ existsb (same_value v) seen = false.
Proof.
  revert seen. induction l as [|x l IH]; intros seen; simpl; [by intros ?%elem_of_nil |].
  destruct (existsb (same_value x) seen) eqn:Hseen.
  - intros [Hin Hv]%IH. split; [by right | done].
  - intros [-> | [Hin Hv]%IH]%elem_of_cons; [by split; [left |] |].
    split; [by right |]. simpl in Hv. by apply orb_false_iff in Hv as [_ Hv].
Qed.

Lemma unique_from_distinct (seen l : list cellT) : distinct (unique_from seen l).
Proof.
  revert seen. induction l as [|x l IH]; intros seen; simpl; [done |].
  destruct (existsb (same_value x) seen); [apply IH |].
  simpl. split; [| apply IH].
  intros u [_ Hu]%unique_from_elem. simpl in Hu.
  by apply orb_false_iff in Hu as [Hu _].
Qed.

Lemma unique_from_covers (seen l : list cellT) (x : cellT) :
  x ∈ l →
  existsb (same_value x) seen = true
  ∨ ∃ v, v ∈ unique_from seen l ∧ same_value x v = true.
Proof.
  revert seen. induction l as [|y l IH]; intros seen; [by intros ?%elem_of_nil |].
  intros [-> | Hin]%elem_of_cons; simpl.
  - destruct (existsb (same_value y) seen) eqn:Hseen; [by left |].
    right. exists y. split; [by left | apply same_value_refl].
  - destruct (existsb (same_value y) seen) eqn:Hseen; [by apply IH |].
    destruct (IH (y :: seen) Hin) as [Hs | (v & Hv & Hsame)].
    + simpl in Hs. apply orb_true_iff in Hs as [Hs | Hs]; [| by left].
      right. exists y. split; [by left | done].
    + right. exists v. split; [by right | done].
Qed.

Lemma count_same_distinct (l : list cellT) (x v : cellT) :
  distinct l → v ∈ l → same_value x v = true →
  count (same_value x) l = 1%nat.
Proof.
  unfold count. induction l as [|u l IH]; [by intros _ ?%elem_of_nil |].
  simpl. intros [Hu Hd] Hin Hsame.
  destruct (same_value x u) eqn:Hxu.
  - simpl. f_equal. apply length_zero_iff_nil.
    assert (Forall (λ t, same_value x t = false) l) as Hnone.
    { apply Forall_forall. intros t Ht.
      destruct (same_value x t) eqn:Hxt; [| done].
      rewrite <- (Hu t Ht). symmetry. rewrite same_value_sym.
      apply (same_value_trans u x t); [by rewrite same_value_sym | done]. }
    clear -Hnone. induction Hnone as [|t l Ht _ IHl]; [done |].
    simpl. by rewrite Ht.
  - apply IH; [done | | done].
    apply elem_of_cons in Hin as [-> | Hin]; [congruence | done].
Qed.

End Values.

Section Partition.
Context {number : Type} {number_ops : PyNumber number}.
Hypothesis number_eqb_refl : ∀ x : number, number_eqb x x = true.
Hypothesis number_eqb_sym : ∀ x y : number, number_eqb x y = number_eqb y x.
Hypothesis number_eqb_trans : ∀ x y z : number,
  number_eqb x y = true → number_eqb y z = true → number_eqb x z = true.

Local Abbreviation cellT := (scalar number).
Local Abbreviation rowT := (gmap string (scalar number)).
Local Abbreviation frame := (DataFrame number).

Lemma count_map {A B : Type} (f : B → bool) (g : A → B) (l : list A) :
  count (λ a, f (g a)) l = count f (g <$> l).
Proof.
  unfold count. induction l as [|a l IH]; [done |].
  simpl. destruct (f (g a)); simpl; by rewrite IH.
Qed.

Lemma type_rows_len (df : frame) (v : cellT) :
  len (type_rows df v) = count (λ x, cell_eq x v) (column "Type" df).
Proof. unfold len, type_rows, select, column. simpl. apply (count_map (λ x, cell_eq x v)). Qed.

Lemma count_pos {A : Type} (f : A → bool) (l : list A) (a : A) :
  a ∈ l → f a = true → List.filter f l ≠ [].
Proof.
  intros Hin Hf Hnil.
  assert (a ∈ List.filter f l) as Ha.
  { apply list_elem_of_In, List.filter_In. by rewrite <- list_elem_of_In. }
  rewrite Hnil in Ha. by apply elem_of_nil in Ha.
Qed.

Lemma type_rows_empty (df : frame) (v : cellT) :
  has_column "Type" df = true → v ∈ column "Type" df →
  empty (type_rows df v) = is_missing v.
Proof.
  intros Hcol Hv. apply has_column_true in Hcol.
  unfold empty. simpl. destruct (columns df) as [|c cols]; [by apply elem_of_nil in Hcol |].
  destruct v as [s|x|]; simpl.
  - apply list_elem_of_fmap in Hv as (r & Hr & Hin).
    destruct (List.filter _ (rows df)) eqn:Hf; [| done].
    exfalso. eapply (count_pos _ _ r Hin); [| exact Hf].
    simpl. rewrite <- Hr. simpl. apply String.eqb_refl.
  - apply list_elem_of_fmap in Hv as (r & Hr & Hin).
    destruct (List.filter _ (rows df)) eqn:Hf; [| done].
    exfalso. eapply (count_pos _ _ r Hin); [| exact Hf].
    simpl. rewrite <- Hr. simpl. apply number_eqb_refl.
  - assert (List.filter (λ r, cell_eq (cell "Type" r) NaN) (rows df) = []) as ->; [| done].
    induction (rows df) as [|r l IH]; [done |].
    simpl. by rewrite cell_eq_missing_r.
Qed.

Lemma save_types_files (output_prefix : string) (df : frame) (types : list cellT) :
  has_column "Type" df = true →
  (∀ v, v ∈ types → v ∈ column "Type" df) →
  writes_of (save_types output_prefix df types)
  = (λ v, (type_file output_prefix v, type_rows df v))
      <$> List.filter (λ v, negb (is_missing v)) types.
Proof.
  intros Hcol. induction types as [|v types IH]; intros Hin; [done |].
  simpl save_types. rewrite writes_of_app.
  rewrite type_rows_empty by (done || apply Hin; by left).
  rewrite IH by (intros u Hu; apply Hin; by right).
  simpl. by destruct (is_missing v).
Qed.

Lemma unique_elem (l : list cellT) (v : cellT) : v ∈ unique l → v ∈ l.
Proof. intros Hv. by apply unique_from_elem in Hv as [Hv _]. Qed.

(** Every value of the column other than the missing value is the value
    of exactly one of the types that get a file. *)
Lemma present_types_once (df : frame) (x : cellT) :
  x ∈ column "Type" df →
  count (cell_eq x) (present_types df) = if is_missing x then 0%nat else 1%nat.
Proof.
  intros Hx. unfold present_types.
  assert (∀ l, count (cell_eq x) (List.filter (λ v, negb (is_missing v)) l)
               = if is_missing x then 0%nat else count (same_value x) l) as Hcount.
  { unfold count. induction l as [|u l IH]; [by destruct (is_missing x) |].
    simpl. destruct (is_missing u) eqn:Hu; simpl.
    - rewrite IH. destruct u; [done | done |]. by destruct x.
    - rewrite (cell_eq_same x u). destruct (is_missing x) eqn:Hmx; [done |].
      destruct (same_value x u); simpl; by rewrite IH. }
  rewrite Hcount. destruct (is_missing x); [done |].
  destruct (unique_from_covers number_eqb_refl [] (column "Type" df) x Hx)
    as [Hs | (v & Hv & Hsame)]; [done |].
  eapply (count_same_distinct number_eqb_sym number_eqb_trans); [| exact Hv | exact Hsame].
  apply unique_from_distinct.
Qed.

Lemma sum_counts_cons (types : list cellT) (x : cellT) (l : list cellT) :
  sum_list ((λ v, count (λ y, cell_eq y v) (x :: l)) <$> types)
  = (count (cell_eq x) types
     + sum_list ((λ v, count (λ y, cell_eq y v) l) <$> types))%nat.
Proof.
  induction types as [|v types IH]; [done |].
  rewrite !fmap_cons. simpl sum_list. rewrite IH.
  unfold count. simpl. destruct (cell_eq x v); simpl; lia.
Qed.

Lemma sum_counts (df : frame) (l : list cellT) :
  (∀ x, x ∈ l → x ∈ column "Type" df) →
  sum_list ((λ v, count (λ y, cell_eq y v) l) <$> present_types df)
  = count (λ x, negb (is_missing x)) l.
Proof.
  induction l as [|x l IH]; intros Hin.
  - unfold count. simpl. induction (present_types df) as [|v vs IHv]; [done |]. done.
  - rewrite sum_counts_cons, IH by (intros y Hy; apply Hin; by right).
    rewrite present_types_once by (apply Hin; by left).
    unfold count. simpl. by destruct (is_missing x).
Qed.

End Partition.

Section Files.
Context {number : Type} {number_ops : PyNumber number}.

Local Abbreviation cellT := (scalar number).
Local Abbreviation rowT := (gmap string (scalar number)).
Local Abbreviation frame := (DataFrame number).

Lemma files_after_elem (ws : list (string * frame)) (name : string) (df : frame) :
  files_after ws !! name = Some df → (name, df) ∈ ws.
Proof.
  induction ws as [|[n t] ws IH] using rev_ind.
  - unfold files_after. simpl. by rewrite lookup_empty.
  - rewrite files_after_snoc. destruct (decide (n = name)) as [->|Hne].
    + rewrite lookup_insert_eq. intros [= ->]. set_solver.
    + rewrite lookup_insert_ne by done. set_solver.
Qed.

Lemma files_after_app_other (ws1 ws2 : list (string * frame)) (name : string) :
  (∀ df, (name, df) ∉ ws2) →
  files_after (ws1 ++ ws2) !! name = files_after ws1 !! name.
Proof.
  induction ws2 as [|[n t] ws2 IH] using rev_ind; intros Hnot.
  - by rewrite app_nil_r.
  - rewrite app_assoc, files_after_snoc.
    rewrite lookup_insert_ne.
    + apply IH. intros df Hin. apply (Hnot df). set_solver.
    + intros ->. apply (Hnot t). set_solver.
Qed.

Lemma files_after_unique (ws : list (string * frame)) (name : string) (df : frame) :
  NoDup ws.*1 → (name, df) ∈ ws → files_after ws !! name = Some df.
Proof.
  induction ws as [|[n t] ws IH] using rev_ind; [by intros _ ?%elem_of_nil |].
  rewrite fmap_app, files_after_snoc. simpl.
  intros [Hnd [Hnot _]]%NoDup_app [Hin | [= -> ->]%list_elem_of_singleton]%elem_of_app.
  - rewrite lookup_insert_ne; [by apply IH |].
    intros ->. apply (Hnot name); [| set_solver].
    apply list_elem_of_fmap. by exists (name, df).
  - by rewrite lookup_insert_eq.
Qed.

Lemma prefix_elem {A : Type} (l1 l2 : list A) (x : A) :
  l1 `prefix_of` l2 → x ∈ l1 → x ∈ l2.
Proof. intros [k ->] Hx. apply elem_of_app. by left. Qed.

Lemma save_types_elem (output_prefix : string) (df : frame) (types : list cellT)
    (name : string) (t : frame) :
  (name, t) ∈ writes_of (save_types output_prefix df types) →
  ∃ v, v ∈ types ∧ empty (type_rows df v) = false
       ∧ name = type_file output_prefix v ∧ t = type_rows df v.
Proof.
  induction types as [|v types IH]; [by intros ?%elem_of_nil |].
  simpl save_types. rewrite writes_of_app, elem_of_app.
  intros [Hin | Hin].
  - destruct (empty (type_rows df v)) eqn:He; simpl in Hin;
      [by apply elem_of_nil in Hin |].
    apply list_elem_of_singleton in Hin as [= -> ->].
    exists v. split; [by left | done].
  - destruct (IH Hin) as (u & Hu & Hrest). exists u. split; [by right | done].
Qed.

Lemma save_chains_elem (output_prefix : string) (df : frame)
    (name : string) (t : frame) :
  (name, t) ∈ writes_of (save_chains output_prefix df) →
  has_column "Chn1" df = true ∧ has_column "Chn2" df = true ∧ empty t = false
  ∧ (name = ab_file output_prefix ∧ t = chain_rows "A" "B" df
     ∨ name = ba_file output_prefix ∧ t = chain_rows "B" "A" df).
Proof.
  unfold save_chains.
  destruct (has_column "Chn1" df); [| by intros ?%elem_of_nil].
  destruct (has_column "Chn2" df); [| by intros ?%elem_of_nil].
  simpl andb. cbv iota. rewrite writes_of_app, elem_of_app.
  destruct (empty (chain_rows "A" "B" df)) eqn:Hab;
    destruct (empty (chain_rows "B" "A" df)) eqn:Hba; simpl;
    rewrite ?elem_of_nil, ?list_elem_of_singleton; naive_solver.
Qed.

(** Every [to_csv] call of the write phase: the file of an interaction
    type with a row, the A->B or the B->A file with a row, or the
    complete file. *)
Lemma save_results_elem (output_prefix : string) (df : frame)
    (name : string) (t : frame) :
  (name, t) ∈ writes_of (save_results output_prefix df) →
  (has_column "Type" df = true
   ∧ ∃ v, v ∈ unique (column "Type" df) ∧ empty (type_rows df v) = false
          ∧ name = type_file output_prefix v ∧ t = type_rows df v)
  ∨ (has_column "Type" df = true
     ∧ has_column "Chn1" df = true ∧ has_column "Chn2" df = true
     ∧ empty t = false
     ∧ (name = ab_file output_prefix ∧ t = chain_rows "A" "B" df
        ∨ name = ba_file output_prefix ∧ t = chain_rows "B" "A" df))
  ∨ (name = complete_file output_prefix ∧ t = df).
Proof.
  rewrite save_results_writes, elem_of_app, list_elem_of_singleton.
  intros [Hin | [= -> ->]]; [| by right; right].
  unfold save_by_type in Hin.
  destruct (has_column "Type" df); [| by apply elem_of_nil in Hin].
  rewrite writes_of_print, writes_of_app, elem_of_app in Hin.
  destruct Hin as [Hin | Hin].
  - left. split; [done |]. by apply save_types_elem.
  - right. left. split; [done |]. by apply save_chains_elem.
Qed.

Lemma type_file_suffix (output_prefix : string) (v : cellT) (stem : string) :
  type_file output_prefix v = output_prefix +:+ "_" +:+ stem +:+ ".csv" →
  format_cell v = stem.
Proof.
  unfold type_file. intros Heq.
  apply String.app_inj in Heq. rewrite !append_cons, !append_nil in Heq.
  injection Heq as Heq. by apply append_inj_r in Heq.
Qed.

Lemma chain_file_names (output_prefix : string) :
  ab_file output_prefix ≠ ba_file output_prefix
  ∧ ab_file output_prefix ≠ complete_file output_prefix
  ∧ ba_file output_prefix ≠ complete_file output_prefix.
Proof.
  unfold ab_file, ba_file, complete_file.
  repeat split; intros Heq; by apply String.app_inj in Heq.
Qed.

Lemma cell_eq_str (c : string) (r : rowT) (s : string) :
  cell_eq (cell c r) (Str s) = true ↔ r !! c = Some (Str s).
Proof.
  unfold cell. destruct (r !! c) as [[a|x|]|]; simpl; try done.
  rewrite String.eqb_eq. naive_solver.
Qed.

Lemma chain_rows_spec (chn1 chn2 : string) (df : frame) (r : rowT) :
  r ∈ rows (chain_rows chn1 chn2 df)
  ↔ r ∈ rows df ∧ r !! "Chn1" = Some (Str chn1) ∧ r !! "Chn2" = Some (Str chn2).
Proof.
  unfold chain_rows, select. simpl.
  rewrite list_elem_of_In, List.filter_In, <- list_elem_of_In.
  by rewrite andb_true_iff, !cell_eq_str.
Qed.

Lemma type_rows_spec (df : frame) (v : cellT) (r : rowT) :
  r ∈ rows (type_rows df v) ↔ r ∈ rows df ∧ cell_eq (cell "Type" r) v = true.
Proof.
  unfold type_rows, select. simpl.
  by rewrite list_elem_of_In, List.filter_In, <- list_elem_of_In.
Qed.

Lemma select_empty (mask : rowT → bool) (df : frame) (c : string) :
  c ∈ columns df →
  empty (select mask df) = bool_decide (rows (select mask df) = []).
Proof.
  intros Hc. unfold empty. simpl.
  destruct (columns df); [by apply elem_of_nil in Hc |].
  by destruct (List.filter mask (rows df)).
Qed.

End Files.

Section Chains.
Context {number World : Type} {number_ops : PyNumber number}
  {platform : Platform number World}.

Local Abbreviation cellT := (scalar number).
Local Abbreviation rowT := (gmap string (scalar number)).
Local Abbreviation frame := (DataFrame number).

(** Closes [(name, t) ∉ writes] for a short list of writes under other
    names. *)
Ltac other_names :=
  rewrite ?elem_of_app, ?elem_of_cons, ?elem_of_nil; naive_solver.

(** The [to_csv] calls of the write phase when the three columns are
    there. *)
Lemma save_results_shape (output_prefix : string) (df : frame) :
  has_column "Type" df = true →
  has_column "Chn1" df = true → has_column "Chn2" df = true →
  writes_of (save_results output_prefix df)
  = writes_of (save_types output_prefix df (unique (column "Type" df)))
    ++ (if bool_decide (rows (chain_rows "A" "B" df) = []) then []
        else [(ab_file output_prefix, chain_rows "A" "B" df)])
    ++ (if bool_decide (rows (chain_rows "B" "A" df) = []) then []
        else [(ba_file output_prefix, chain_rows "B" "A" df)])
    ++ [(complete_file output_prefix, df)].
Proof.
  intros Htype Hc1 Hc2. rewrite save_results_writes.
  unfold save_by_type, save_chains. rewrite Htype, Hc1, Hc2.
  simpl andb. cbv iota.
  rewrite writes_of_print, !writes_of_app.
  apply has_column_true in Htype.
  unfold chain_rows.
  rewrite !(select_empty _ _ _ Htype).
  do 2 destruct (bool_decide _); simpl; by rewrite <- ?app_assoc.
Qed.

Lemma save_results_without_type (output_prefix : string) (df : frame) :
  has_column "Type" df = false →
  writes_of (save_results output_prefix df) = [(complete_file output_prefix, df)].
Proof.
  intros Htype. rewrite save_results_writes. unfold save_by_type.
  by rewrite Htype.
Qed.

Lemma empty_false_rows (t : frame) : empty t = false → rows t ≠ [].
Proof. unfold empty. destruct (columns t), (rows t); done. Qed.

(** C1 (amended): the A->B and B->A files are written only under the
    test for the [Type] column. With [Type], [Chn1] and [Chn2] among the
    columns, a write phase in which no [to_csv] call raises leaves
    [<prefix>_A_to_B.csv] holding exactly the rows with [Chn1 == "A"] and
    [Chn2 == "B"] when there is such a row, and likewise
    [<prefix>_B_to_A.csv]. For an empty selection, a file of that name
    is on disk only if it is the file of an interaction type spelled
    [A_to_B] (or [B_to_A]), whether or not a call raised. Without a
    [Type] column the only [to_csv] call is the one for the complete
    file, and neither file is on disk. *)
Theorem chain_files_under_type (w : World) (output_prefix : string) (df : frame) :
  let r := perform w (save_results output_prefix df) in
  let files := files_after (files_done r) in
  let ab_df := chain_rows "A" "B" df in
  let ba_df := chain_rows "B" "A" df in
  (∀ r, r ∈ rows ab_df
        ↔ r ∈ rows df ∧ r !! "Chn1" = Some (Str "A") ∧ r !! "Chn2" = Some (Str "B"))
  ∧ (∀ r, r ∈ rows ba_df
          ↔ r ∈ rows df ∧ r !! "Chn1" = Some (Str "B") ∧ r !! "Chn2" = Some (Str "A"))
  ∧ (has_column "Type" df = true →
     has_column "Chn1" df = true → has_column "Chn2" df = true →
     raised r = false →
     (rows ab_df ≠ [] → files !! ab_file output_prefix = Some ab_df)
     ∧ (rows ba_df ≠ [] → files !! ba_file output_prefix = Some ba_df))
  ∧ (rows ab_df = [] → ∀ t, files !! ab_file output_prefix = Some t →
       ∃ v, v ∈ unique (column "Type" df)
            ∧ format_cell v = "A_to_B" ∧ t = type_rows df v)
  ∧ (rows ba_df = [] → ∀ t, files !! ba_file output_prefix = Some t →
       ∃ v, v ∈ unique (column "Type" df)
            ∧ format_cell v = "B_to_A" ∧ t = type_rows df v)
  ∧ (has_column "Type" df = false →
     writes_of (save_results output_prefix df) = [(complete_file output_prefix, df)]
     ∧ files !! ab_file output_prefix = None
     ∧ files !! ba_file output_prefix = None).
Proof.
  intros r files ab_df ba_df.
  destruct (chain_file_names output_prefix) as (Hab_ba & Hab_c & Hba_c).
  assert (∀ name t, files !! name = Some t →
            (name, t) ∈ writes_of (save_results output_prefix df)) as Hdisk.
  { intros name t Hl. apply files_after_elem in Hl.
    exact (prefix_elem _ _ _ (perform_prefix w _) Hl). }
  split; [apply chain_rows_spec |]. split; [apply chain_rows_spec |].
  split; [| split; [| split]].
  - intros Htype Hc1 Hc2 Hr. subst files r.
    rewrite (perform_returns w _ Hr).
    rewrite (save_results_shape _ _ Htype Hc1 Hc2). fold ab_df ba_df.
    set (type_files :=
           writes_of (save_types output_prefix df (unique (column "Type" df)))).
    split.
    + intros Hrows. rewrite (bool_decide_eq_false_2 _ Hrows).
      rewrite app_assoc, files_after_app_other
        by (intros t; destruct (bool_decide _); other_names).
      by rewrite files_after_snoc, lookup_insert_eq.
    + intros Hrows. rewrite (bool_decide_eq_false_2 _ Hrows).
      rewrite !app_assoc, files_after_app_other by (intros ?; other_names).
      by rewrite files_after_snoc, lookup_insert_eq.
  - intros Hrows t Hl. apply Hdisk, save_results_elem in Hl.
    destruct Hl as [(_ & v & Hv & _ & Hname & ->)
                   | [(_ & _ & _ & He & [[_ ->] | [Hname _]]) | [Hname _]]].
    + exists v. split; [done |]. split; [| done].
      symmetry in Hname. exact (type_file_suffix output_prefix v "A_to_B" Hname).
    + by apply empty_false_rows in He.
    + done.
    + done.
  - intros Hrows t Hl. apply Hdisk, save_results_elem in Hl.
    destruct Hl as [(_ & v & Hv & _ & Hname & ->)
                   | [(_ & _ & _ & He & [[Hname _] | [_ ->]]) | [Hname _]]].
    + exists v. split; [done |]. split; [| done].
      symmetry in Hname. exact (type_file_suffix output_prefix v "B_to_A" Hname).
    + by symmetry in Hname.
    + by apply empty_false_rows in He.
    + done.
  - intros Htype. split; [by apply save_results_without_type |].
    assert (∀ name, name ≠ complete_file output_prefix → files !! name = None)
      as Hnone.
    { intros name Hne. destruct (files !! name) as [t|] eqn:Hl; [| done].
      apply Hdisk in Hl. rewrite (save_results_without_type _ _ Htype) in Hl.
      apply list_elem_of_singleton in Hl as [= -> ->]. done. }
    split; by apply Hnone.
Qed.

End Chains.

Section TypePartition.
Context {number World : Type} {number_ops : PyNumber number}
  {platform : Platform number World}.
Hypothesis number_eqb_refl : ∀ x : number, number_eqb x x = true.
Hypothesis number_eqb_sym : ∀ x y : number, number_eqb x y = number_eqb y x.
Hypothesis number_eqb_trans : ∀ x y z : number,
  number_eqb x y = true → number_eqb y z = true → number_eqb x z = true.

Local Abbreviation cellT := (scalar number).
Local Abbreviation frame := (DataFrame number).

Lemma type_file_inj (output_prefix : string) (u v : cellT) :
  type_file output_prefix u = type_file output_prefix v →
  format_cell u = format_cell v.
Proof.
  intros Heq. apply (type_file_suffix output_prefix u (format_cell v)). exact Heq.
Qed.

Lemma type_files_unique (output_prefix : string) (types : list cellT) :
  NoDup (format_cell <$> types) → NoDup (type_file output_prefix <$> types).
Proof.
  induction types as [|v types IH]; [constructor |].
  rewrite !fmap_cons, !NoDup_cons. intros [Hnot Hnd]. split; [| by apply IH].
  intros (u & Heq & Hu)%list_elem_of_fmap. apply Hnot.
  apply list_elem_of_fmap. exists u. split; [| done].
  by apply type_file_inj in Heq.
Qed.

(** C7 (amended): with a [Type] column, in a write phase in which no
    [to_csv] call raises, and when the distinct values of the column
    other than the missing value are spelled differently from one
    another and from [A_to_B], [B_to_A] and [complete]: for each such
    value the file [<prefix>_<value>.csv] is on disk and holds exactly
    the rows whose [Type] equals that value; these files have different
    names, one per value, and every file on disk is one of them or the
    A->B, the B->A or the complete file; every row with a [Type] is in
    exactly one of them, and their row counts add up to the number of
    rows whose [Type] is not missing, which is the row count of the
    complete table when no [Type] is missing. *)
Theorem type_files_partition_present (w : World) (output_prefix : string)
    (df : frame) :
  has_column "Type" df = true →
  raised (perform w (save_results output_prefix df)) = false →
  NoDup (format_cell <$> present_types df) →
  (∀ v, v ∈ present_types df →
        format_cell v ∉ ["A_to_B"; "B_to_A"; "complete"]) →
  let files := files_after (files_done (perform w (save_results output_prefix df))) in
  let names := type_file output_prefix <$> present_types df in
  (∀ v, v ∈ present_types df →
        files !! type_file output_prefix v = Some (type_rows df v))
  ∧ NoDup names
  ∧ (∀ name, is_Some (files !! name) →
       name ∈ names ∨ name = ab_file output_prefix
       ∨ name = ba_file output_prefix ∨ name = complete_file output_prefix)
  ∧ (∀ x, x ∈ column "Type" df → is_missing x = false →
       count (cell_eq x) (present_types df) = 1%nat)
  ∧ (∀ v r, r ∈ rows (type_rows df v)
            ↔ r ∈ rows df ∧ cell_eq (cell "Type" r) v = true)
  ∧ sum_list (rows_in files <$> names)
    = count (λ r, negb (is_missing (cell "Type" r))) (rows df)
  ∧ ((∀ r, r ∈ rows df → is_missing (cell "Type" r) = false) →
     sum_list (rows_in files <$> names) = len df).
Proof.
  intros Htype Hr Hnd Hother files names.
  assert (writes_of (save_types output_prefix df (unique (column "Type" df)))
          = (λ v, (type_file output_prefix v, type_rows df v))
              <$> present_types df) as Htypes.
  { apply (save_types_files number_eqb_refl); [done |]. apply unique_elem. }
  assert (∃ others,
            files_done (perform w (save_results output_prefix df))
            = ((λ v, (type_file output_prefix v, type_rows df v))
                 <$> present_types df) ++ others
            ∧ ∀ name t, (name, t) ∈ others →
                name = ab_file output_prefix ∨ name = ba_file output_prefix
                ∨ name = complete_file output_prefix) as (others & Hdone & Hnames).
  { rewrite (perform_returns w _ Hr), save_results_writes.
    unfold save_by_type. rewrite Htype.
    rewrite writes_of_print, writes_of_app, Htypes, <- app_assoc.
    eexists. split; [done |].
    intros name t [Hin | [= -> ->]%list_elem_of_singleton]%elem_of_app;
      [| by right; right].
    apply save_chains_elem in Hin. naive_solver. }
  assert (∀ v, v ∈ present_types df →
            files !! type_file output_prefix v = Some (type_rows df v)) as Hdisk.
  { intros v Hv. subst files. rewrite Hdone.
    rewrite files_after_app_other.
    - apply files_after_unique.
      + rewrite <- list_fmap_compose. by apply type_files_unique.
      + apply list_elem_of_fmap. by exists v.
    - intros t Hin. apply Hnames in Hin. specialize (Hother v Hv).
      destruct Hin as [Hn | [Hn | Hn]].
      + pose proof (type_file_suffix output_prefix v "A_to_B" Hn) as Hs.
        rewrite Hs in Hother. set_solver.
      + pose proof (type_file_suffix output_prefix v "B_to_A" Hn) as Hs.
        rewrite Hs in Hother. set_solver.
      + pose proof (type_file_suffix output_prefix v "complete" Hn) as Hs.
        rewrite Hs in Hother. set_solver. }
  assert (sum_list (rows_in files <$> names)
          = count (λ r, negb (is_missing (cell "Type" r))) (rows df)) as Hsum.
  { subst names. rewrite <- list_fmap_compose.
    rewrite (count_map (λ x, negb (is_missing x)) (cell "Type")).
    change (cell "Type" <$> rows df) with (column "Type" df).
    rewrite <- (sum_counts number_eqb_refl number_eqb_sym number_eqb_trans df
                  (column "Type" df)) by done.
    f_equal. apply list_fmap_ext. intros i v Hi. simpl.
    unfold rows_in. rewrite (Hdisk v) by (by eapply list_elem_of_lookup_2).
    apply type_rows_len. }
  split; [done |].
  split; [by apply type_files_unique |].
  split.
  { intros name [t Hl]. subst files. rewrite Hdone in Hl.
    apply files_after_elem, elem_of_app in Hl as [Hin | Hin].
    - left. apply list_elem_of_fmap in Hin as (v & [= -> ->] & Hv).
      apply list_elem_of_fmap. by exists v.
    - right. by apply (Hnames name t). }
  split.
  { intros x Hx Hm.
    rewrite (present_types_once number_eqb_refl number_eqb_sym number_eqb_trans) by done.
    by rewrite Hm. }
  split; [apply type_rows_spec |]. split; [done |].
  rewrite Hsum. unfold count, len. generalize (rows df) as l.
  induction l as [|r l IH]; intros Hall; [done |].
  simpl. rewrite (Hall r) by (by left). simpl. f_equal.
  apply IH. intros r' Hr'. apply Hall. by right.
Qed.

End TypePartition.

(** ** The scenarios, run *)

Import Scenario.


(** Closes a goal [l ≠ []] for a closed list by evaluating its length. *)
Ltac nonempty :=
  let H := fresh in
  intros H; apply (f_equal length) in H; vm_compute in H; discriminate H.

(** Closes an equation between closed terms by evaluating them. *)
Ltac evaluate := vm_compute; reflexivity.

(** The end-to-end scenario: one pair, the report beside the structure
    file, three files written, one warning for the PAE file without CIF. *)
Example scenario_files :
  (written (main world_ok args)).*1
  = ["ipsae_results_asym.csv"; "ipsae_results_A_to_B.csv";
     "ipsae_results_complete.csv"]
  ∧ exit_status (main world_ok args) = 0%Z.
Proof. split; evaluate. Qed.

Example scenario_columns :
  columns (concat (produced_tables world_ok args))
  = ["Chn1"; "Chn2"; "Type"; "Score"; "input_name"; "pae_file"; "cif_file"].
Proof. reflexivity. Qed.

Example scenario_command :
  Running "python ipsae.py out/predictions/foo/pae_foo_model_0.npz out/predictions/foo/foo_model_0.cif 15.0 15.0"
  ∈ printed (main world_ok args).
Proof. vm_compute. set_solver. Qed.

(** Two tables without a common column: the columns are put together and
    each row is missing the cells of the other table. *)
Example concat_disjoint :
  columns (concat [left_table; right_table]) = ["a"; "b"]
  ∧ (cell "a" <$> rows (concat [left_table; right_table])) = [Num (Sim.Whole 1); NaN]
  ∧ (cell "b" <$> rows (concat [left_table; right_table])) = [NaN; Str "x"].
Proof. repeat split; evaluate. Qed.

(** An integer column that receives a missing value turns into [float]:
    the integer 1 under [Type] becomes 1.0, and its file is named
    [<prefix>_1.0.csv]. *)
Example concat_upcast :
  column "Type" (concat [int_type_table; right_table]) = [Num (Sim.Whole 1); NaN]
  ∧ column "Type" (concat [int_type_table]) = [Num (Sim.Int 1)]
  ∧ writes_of (save_results "p" (concat [int_type_table; right_table]))
    = [("p_1.0.csv", type_rows (concat [int_type_table; right_table])
                       (Num (Sim.Whole 1)));
       ("p_complete.csv", concat [int_type_table; right_table])].
Proof. repeat split; evaluate. Qed.

(** [--output_prefix nodir/res] without a directory [nodir]: the table
    is collected, the first [to_csv] raises, nothing is written and the
    process ends with status 1. *)
Example scenario_nodir :
  length (produced_tables world_ok args_nodir) = 1%nat
  ∧ planned_writes world_ok args_nodir
    = [("nodir/res_asym.csv",
        type_rows (concat (produced_tables world_ok args_nodir)) (Str "asym"));
       ("nodir/res_A_to_B.csv",
        chain_rows "A" "B" (concat (produced_tables world_ok args_nodir)));
       ("nodir/res_complete.csv", concat (produced_tables world_ok args_nodir))]
  ∧ to_csv_raised world_ok args_nodir = true
  ∧ written (main world_ok args_nodir) = []
  ∧ last (printed (main world_ok args_nodir)) = Some (FoundTypes [Str "asym"])
  ∧ exit_status (main world_ok args_nodir) = 1%Z.
Proof. repeat split; evaluate. Qed.

(** [predictions] exists and is not a directory: [os.listdir] raises,
    and the process ends with status 1 after its first line. *)
Example scenario_not_dir :
  find_boltz_structures world_not_dir "out" = None
  ∧ printed (main world_not_dir args) = [FindingPairs]
  ∧ written (main world_not_dir args) = []
  ∧ exit_status (main world_not_dir args) = 1%Z.
Proof. repeat split; evaluate. Qed.

Lemma no_pairs_exit_nonzero_witness :
  path_exists world_bare (OsPath.join (out_dir args) "predictions") = false
  ∧ exit_status (main world_bare args) = 1%Z
  ∧ written (main world_bare args) = [].
Proof.
  split; [reflexivity |].
  destruct (no_pairs_exit_nonzero world_bare args)
    as (_ & Hexit & Hfiles & _); [left; reflexivity |].
  split; assumption.
Defined.

(** C2 as stated fails: one pair is discovered, the tool exits with
    status 1, no table is collected, and the process ends with status 0. *)
Lemma all_pairs_fail_exit_zero :
  ¬ (produced_tables world_fails args = [] →
     written (main world_fails args) = []
     ∧ exit_status (main world_fails args) ≠ 0%Z).
Proof.
  intros Hclaim. destruct Hclaim as [_ Hexit]; [reflexivity |].
  apply Hexit. reflexivity.
Qed.

Lemma no_tables_no_files_witness :
  produced_tables world_fails args = []
  ∧ written (main world_fails args) = []
  ∧ exit_status (main world_fails args) = 0%Z
  ∧ last (printed (main world_fails args)) = Some NoResults.
Proof.
  split; [reflexivity |].
  destruct (no_tables_no_files world_fails args) as [Hfiles Hexit]; [reflexivity |].
  split; [exact Hfiles |].
  apply Hexit; [reflexivity | reflexivity | discriminate].
Defined.

Lemma run_ipsae_locates_report_witness :
  ∃ log, run_ipsae world_ok "ipsae.py" pae0 cif0 (Sim.Whole 15) (Sim.Whole 15)
         = (Some txt0, (Sim.run world_ok
                          (command "ipsae.py" pae0 cif0 (Sim.Whole 15) (Sim.Whole 15))).2,
            log).
Proof.
  assert (subprocess_run world_ok
            (command "ipsae.py" pae0 cif0 (Sim.Whole 15) (Sim.Whole 15))
          = (Exited 0 EmptyString EmptyString,
             (Sim.run world_ok
                (command "ipsae.py" pae0 cif0 (Sim.Whole 15) (Sim.Whole 15))).2))
    as Hok by reflexivity.
  destruct (run_ipsae_locates_report _ _ _ _ _ _ _ _ _ Hok)
    as (a & b & Hcmd & log & Hrun & _).
  injection Hcmd as <- <-. exists log. exact Hrun.
Defined.

(** C4 fails in the code: [model_part] is what [str.replace] leaves of
    the file name, not the file name without its prefix and suffix, and
    the files searched are whatever [glob.glob] matched. In a folder [a]
    holding [pae_a_model_2.npz.npz] and [a_model_2.cif] the convention
    finds one PAE file, with the suffix [model_2.npz] and without its CIF
    file [a_model_2.npz.cif] (N = 0, M = 1); the discovery returns one
    pair, made of that PAE file and [a_model_2.cif], and prints no
    warning. With the folders [foo[1]] and [foo1], the PAE file of [foo1]
    has no CIF file (N = 0, M = 1), and the discovery returns it paired
    with a file of the folder [foo[1]], under the name [foo[1]]. On the
    regular layout of the scenarios the two agree. *)
Theorem discovery_counts_diverge :
  (Convention.pae_files world_npz_twice "out"
   = [("a", "pae_a_model_2.npz.npz", "model_2.npz")]
   ∧ Convention.well_formed world_npz_twice "out" = 0%nat
   ∧ Convention.malformed world_npz_twice "out" = 1%nat
   ∧ discovered_pairs world_npz_twice "out"
     = [("out/predictions/a/pae_a_model_2.npz.npz",
         "out/predictions/a/a_model_2.cif", "a")]
   ∧ count_warnings (discovery_log world_npz_twice "out") = 0%nat)
  ∧ (Convention.pae_files world_bracket "out"
     = [("foo1", "pae_foo1_model_0.npz", "model_0")]
     ∧ Convention.well_formed world_bracket "out" = 0%nat
     ∧ Convention.malformed world_bracket "out" = 1%nat
     ∧ discovered_pairs world_bracket "out"
       = [("out/predictions/foo1/pae_foo1_model_0.npz",
           "out/predictions/foo[1]/foo[1]_pae_foo1_model_0.cif", "foo[1]")]
     ∧ count_warnings (discovery_log world_bracket "out") = 1%nat)
  ∧ (Convention.well_formed world_ok "out" = 1%nat
     ∧ Convention.malformed world_ok "out" = 1%nat
     ∧ length (discovered_pairs world_ok "out") = 1%nat
     ∧ count_warnings (discovery_log world_ok "out") = 1%nat).
Proof. repeat split; evaluate. Qed.

Lemma failed_invocation_contained_witness :
  ∃ w1 log,
    process_pairs args 1 1 [(pae0, cif0, "foo")] world_fails [] = (w1, [], log)
    ∧ Stderr "Traceback" ∈ log.
Proof.
  assert (subprocess_run world_fails
            (command (ipsae_script args) pae0 cif0 (pae_cutoff args) (dist_cutoff args))
          = (Exited 1 EmptyString "Traceback",
             (Sim.run world_fails
                (command "ipsae.py" pae0 cif0 (Sim.Whole 15) (Sim.Whole 15))).2))
    as Hrun by reflexivity.
  destruct (failed_invocation_contained args 1 1 pae0 cif0 "foo" [] world_fails []
              _ _ Hrun)
    as (log1 & _ & Hlog & _ & Hloop); [discriminate |].
  eexists _, _. split; [exact Hloop |].
  destruct (Hlog _ _ _ eq_refl) as [_ Herr].
  rewrite app_nil_r. apply elem_of_cons. right.
  apply elem_of_app. left. exact Herr.
Defined.

Lemma header_only_like_parse_failure_witness :
  ∃ w1 log,
    process_pair args 1 1 (pae0, cif0, "foo") world_header_only [] = (w1, [], log)
    ∧ path_exists w1 txt0_cwd = true
    ∧ last log = Some (FailedToParse txt0_cwd).
Proof.
  assert (∃ w1 log1,
            run_ipsae world_header_only (ipsae_script args) pae0 cif0
              (pae_cutoff args) (dist_cutoff args) = (Some txt0_cwd, w1, log1)
            ∧ read_csv w1 txt0_cwd = Table header_only
            ∧ path_exists w1 txt0_cwd = true)
    as (w1 & log1 & Hrun & Hparse & Hthere).
  { eexists _, _. split; [reflexivity |]. split; reflexivity. }
  assert (unusable (read_csv w1 txt0_cwd)) as Hbad by (rewrite Hparse; reflexivity).
  pose proof (header_only_like_parse_failure args 1 1 pae0 cif0 "foo"
                world_header_only [] txt0_cwd w1 log1 Hrun Hbad) as Hstep.
  eexists _, _. split; [exact Hstep |]. split; [exact Hthere |].
  rewrite app_comm_cons, app_assoc. apply last_snoc.
Defined.



Lemma provenance_on_every_row_witness :
  length (rows (concat (produced_tables world_ok args))) = 1%nat
  ∧ Forall (λ r, r !! "input_name" = Some (Str "foo")
                 ∧ r !! "pae_file" = Some (Str "pae_foo_model_0.npz")
                 ∧ r !! "cif_file" = Some (Str "foo_model_0.cif"))
      (rows (concat (produced_tables world_ok args))).
Proof.
  split; [evaluate |]. apply Forall_forall. intros r Hr.
  destruct (provenance_on_every_row world_ok args r Hr)
    as (pae & cif & name & df0 & r0 & Hin & _ & _ & _ & Hname & Hpae & Hcif).
  vm_compute in Hin. apply list_elem_of_singleton in Hin.
  injection Hin as -> -> ->. repeat split; assumption.
Defined.

(** C1 as stated fails: the combined table of this run has the columns
    [Chn1] and [Chn2] and a row with [A] and [B], but no [Type] column,
    and no A->B file is written. *)
Lemma chain_files_absent_without_type :
  ¬ (has_column "Chn1" combined_no_type = true →
     has_column "Chn2" combined_no_type = true →
     rows (chain_rows "A" "B" combined_no_type) ≠ [] →
     files_after (written (main world_no_type args)) !! ab_file "ipsae_results"
     = Some (chain_rows "A" "B" combined_no_type)).
Proof.
  intros Hclaim.
  assert (files_after (written (main world_no_type args)) !! ab_file "ipsae_results"
          = None) as Hnone by evaluate.
  rewrite Hclaim in Hnone; [discriminate Hnone | evaluate | evaluate | nonempty].
Qed.

Lemma chain_files_under_type_witness :
  raised (write_phase world_ok args) = false
  ∧ files_after (written (main world_ok args)) !! "ipsae_results_A_to_B.csv"
    = Some (chain_rows "A" "B" (concat (produced_tables world_ok args)))
  ∧ files_after (written (main world_no_type args)) !! "ipsae_results_A_to_B.csv"
    = None.
Proof.
  destruct (chain_files_under_type (world_after_loop world_ok args)
              "ipsae_results" (concat (produced_tables world_ok args)))
    as (_ & _ & Hwith & _).
  destruct (chain_files_under_type (world_after_loop world_no_type args)
              "ipsae_results" combined_no_type)
    as (_ & _ & _ & _ & _ & Hwithout).
  split; [evaluate |]. split.
  - destruct Hwith as (Hab & _); [evaluate | evaluate | evaluate | evaluate |].
    apply Hab. nonempty.
  - destruct Hwithout as (_ & Hab & _); [evaluate |]. exact Hab.
Defined.

(** C7 as stated fails. The [Type] column of the first combined table
    holds [asym] and the missing value: only [asym] gets a file, with
    one of the two rows. The [Type] column of the second holds
    [complete] and [asym]: the file [<prefix>_complete.csv] ends up
    holding both rows, not only the row whose [Type] is [complete]. *)
Lemma type_files_skip_missing_type :
  ¬ (has_column "Type" combined_missing_type = true →
     (∀ v, v ∈ unique (column "Type" combined_missing_type) →
        ∃ t, (type_file "ipsae_results" v, t)
             ∈ written (main world_missing_type args))
     ∧ sum_list
         (rows_in (files_after (written (main world_missing_type args)))
            <$> (type_file "ipsae_results"
                   <$> unique (column "Type" combined_missing_type)))
       = len combined_missing_type)
  ∧ ¬ (has_column "Type" combined_type_complete = true →
       ∀ v, v ∈ unique (column "Type" combined_type_complete) →
         files_after (written (main world_type_complete args))
           !! type_file "ipsae_results" v
         = Some (type_rows combined_type_complete v)).
Proof.
  split.
  - intros Hclaim. destruct Hclaim as [_ Hsum]; [evaluate |].
    vm_compute in Hsum. discriminate Hsum.
  - intros Hclaim.
    assert (Str "complete" ∈ unique (column "Type" combined_type_complete))
      as Hin by (vm_compute; apply list_elem_of_here).
    assert (has_column "Type" combined_type_complete = true) as Htype
      by evaluate.
    specialize (Hclaim Htype _ Hin).
    assert (files_after (written (main world_type_complete args))
              !! type_file "ipsae_results" (Str "complete")
            = Some combined_type_complete) as Hdisk by evaluate.
    rewrite Hdisk in Hclaim. apply (f_equal (from_option len 0%nat)) in Hclaim.
    vm_compute in Hclaim. discriminate Hclaim.
Qed.

Lemma num_eqb_refl (x : Sim.num) : number_eqb x x = true.
Proof. apply Z.eqb_refl. Qed.

Lemma num_eqb_sym (x y : Sim.num) : number_eqb x y = number_eqb y x.
Proof. apply Z.eqb_sym. Qed.

Lemma num_eqb_trans (x y z : Sim.num) :
  number_eqb x y = true → number_eqb y z = true → number_eqb x z = true.
Proof. simpl. rewrite !Z.eqb_eq. congruence. Qed.

Lemma type_files_partition_present_witness :
  files_after (written (main world_missing_type args)) !! "ipsae_results_asym.csv"
  = Some (type_rows combined_missing_type (Str "asym"))
  ∧ sum_list
      (rows_in (files_after (written (main world_missing_type args)))
         <$> (type_file "ipsae_results" <$> present_types combined_missing_type))
    = count (λ r, negb (is_missing (cell "Type" r))) (rows combined_missing_type)
  ∧ sum_list
      (rows_in (files_after (written (main world_ok args)))
         <$> (type_file "ipsae_results"
                <$> present_types (concat (produced_tables world_ok args))))
    = len (concat (produced_tables world_ok args)).
Proof.
  assert (has_column "Type" (concat (produced_tables world_ok args)) = true)
    as Hok by evaluate.
  assert (has_column "Type" combined_missing_type = true) as Hmissing by evaluate.
  assert (raised (perform (world_after_loop world_ok args)
                    (save_results "ipsae_results"
                       (concat (produced_tables world_ok args)))) = false)
    as Hr1 by evaluate.
  assert (raised (perform (world_after_loop world_missing_type args)
                    (save_results "ipsae_results" combined_missing_type)) = false)
    as Hr2 by evaluate.
  assert (present_types (concat (produced_tables world_ok args)) = [Str "asym"])
    as Hp1 by evaluate.
  assert (present_types combined_missing_type = [Str "asym"]) as Hp2 by evaluate.
  assert (∀ df : DataFrame Sim.num, present_types df = [Str "asym"] →
            NoDup (format_cell <$> present_types df)
            ∧ (∀ v, v ∈ present_types df →
                 format_cell v ∉ ["A_to_B"; "B_to_A"; "complete"]))
    as Hside.
  { intros df ->. split.
    - apply NoDup_singleton.
    - intros v ->%list_elem_of_singleton. simpl.
      rewrite !not_elem_of_cons. repeat split; [done | done | done |].
      apply not_elem_of_nil. }
  destruct (Hside _ Hp1) as (Hnd1 & Hother1).
  destruct (Hside _ Hp2) as (Hnd2 & Hother2).
  destruct (type_files_partition_present num_eqb_refl num_eqb_sym num_eqb_trans
              _ "ipsae_results" _ Hok Hr1 Hnd1 Hother1)
    as (_ & _ & _ & _ & _ & _ & Hall).
  destruct (type_files_partition_present num_eqb_refl num_eqb_sym num_eqb_trans
              _ "ipsae_results" _ Hmissing Hr2 Hnd2 Hother2)
    as (Hdisk & _ & _ & _ & _ & Hsum & _).
  split; [| split; [exact Hsum |]].
  - apply (Hdisk (Str "asym")). rewrite Hp2. apply list_elem_of_here.
  - apply Hall.
    assert (forallb (λ r, negb (is_missing (cell "Type" r)))
              (rows (concat (produced_tables world_ok args))) = true)
      as Hnone by evaluate.
    rewrite List.forallb_forall in Hnone. intros r Hr.
    apply list_elem_of_In, Hnone in Hr. by apply negb_true_iff in Hr.
Defined.

(** * Further properties *)

Section RunStatus.
Context {number World : Type} {number_ops : PyNumber number}
  {platform : Platform number World}.

Local Abbreviation frame := (DataFrame number).




(** X2: [run_ipsae] returns a path only when the command ended with
    status 0, and the path returned exists in the world the command left;
    it is the expected file name, bare or joined to the directory of the
    structure file. *)
Theorem run_ipsae_returns_existing (w : World) (script pae cif : string)
    (pc dc : number) (txt : string) (w1 : World) (log : list (message number)) :
  run_ipsae w script pae cif pc dc = (Some txt, w1, log) →
  (∃ stdout stderr,
     subprocess_run w (command script pae cif pc dc) = (Exited 0 stdout stderr, w1))
  ∧ path_exists w1 txt = true
  ∧ (txt = expected_output cif pc dc
     ∨ txt = OsPath.join (OsPath.dirname cif) (expected_output cif pc dc)).
Proof.
  unfold run_ipsae.
  destruct (subprocess_run _ _) as [[rc out err|e] w'];
    [destruct (rc =? 0)%Z eqn:Hrc |]; [| done | done].
  apply Z.eqb_eq in Hrc as ->.
  destruct (path_exists w' (expected_output _ _ _)) eqn:Hcwd.
  - intros [= <- <- _]. split; [by eexists _, _ |]. split; [done | by left].
  - destruct (path_exists w' (OsPath.join _ _)) eqn:Hdir; [| done].
    intros [= <- <- _]. split; [by eexists _, _ |]. split; [done | by right].
Qed.

(** X3: when the report is found and parses to a table with at least one
    row, the iteration appends that table with its metadata columns to
    the collected tables, and removes the report exactly when its path
    has no directory part, that is when it was found in the current
    directory; a report found beside the structure file is left in
    place. *)
Theorem successful_iteration (args : Args number) (total i : nat)
    (pae cif name : string) (w : World) (all_results : list frame)
    (txt : string) (w1 : World) (log1 : list (message number)) (df0 : frame) :
  run_ipsae w (ipsae_script args) pae cif (pae_cutoff args) (dist_cutoff args)
  = (Some txt, w1, log1) →
  read_csv w1 txt = Table df0 →
  empty df0 = false →
  process_pair args total i (pae, cif, name) w all_results
  = (if String.eqb (OsPath.dirname txt) EmptyString then remove w1 txt else w1,
     all_results ++ [add_metadata (pae, cif, name) df0],
     Processing i total name :: log1 ++ [Processed (len df0)]).
Proof.
  intros Hrun Hparse Hrows.
  destruct (run_ipsae_returns_existing _ _ _ _ _ _ _ _ _ Hrun) as (_ & Hthere & _).
  pose proof (run_ipsae_path_nonempty _ _ _ _ _ _ _ _ _ Hrun) as Hne.
  apply String.eqb_neq in Hne.
  unfold process_pair. rewrite Hrun, Hne. unfold parse_ipsae_output.
  rewrite Hparse, Hrows. unfold clean_up. rewrite Hthere. simpl.
  do 3 f_equal. unfold add_metadata, len, set_column. simpl.
  by rewrite !length_fmap.
Qed.

End RunStatus.

Section Invocations.
Context {number World : Type} {number_ops : PyNumber number}
  {platform : Platform number World}.

Local Abbreviation frame := (DataFrame number).
Local Abbreviation msg := (message number).

Lemma running_app (l1 l2 : list msg) :
  List.filter is_running (l1 ++ l2)
  = List.filter is_running l1 ++ List.filter is_running l2.
Proof. apply List.filter_app. Qed.

Lemma run_ipsae_running (w : World) (script pae cif : string) (pc dc : number) :
  List.filter is_running (run_ipsae w script pae cif pc dc).2
  = [Running (PyStr.join " " (command script pae cif pc dc))].
Proof.
  unfold run_ipsae.
  destruct (subprocess_run _ _) as [[rc out err|e] w1]; [| done].
  destruct (rc =? 0)%Z; [| done].
  destruct (path_exists w1 _); [done |].
  by destruct (path_exists w1 _).
Qed.

Lemma process_pair_running (args : Args number) (total i : nat) (p : pair)
    (w : World) (all_results : list frame) :
  List.filter is_running (process_pair args total i p w all_results).2
  = [running_line args p].
Proof.
  unfold process_pair, running_line. destruct p as [[pae cif] name].
  pose proof (run_ipsae_running w (ipsae_script args) pae cif
                (pae_cutoff args) (dist_cutoff args)) as Hrun.
  destruct (run_ipsae _ _ _ _ _ _) as [[txt w1] log1]. simpl in Hrun.
  assert (∀ tail, List.filter is_running tail = [] →
            List.filter is_running (Processing i total name :: log1 ++ tail)
            = [Running (PyStr.join " "
                          (command (ipsae_script args) pae cif
                             (pae_cutoff args) (dist_cutoff args)))]) as Hlog.
  { intros tail Htail. simpl. by rewrite running_app, Hrun, Htail. }
  destruct txt as [txt|]; [| by apply Hlog].
  destruct (String.eqb txt EmptyString); [by apply Hlog |].
  unfold parse_ipsae_output.
  destruct (read_csv w1 txt) as [df0|e]; simpl snd; [| by apply Hlog].
  destruct (empty df0); by apply Hlog.
Qed.

Lemma process_pairs_running (args : Args number) (total : nat) (ps : list pair) :
  ∀ (i : nat) (w : World) (all_results : list frame),
  List.filter is_running (process_pairs args total i ps w all_results).2
  = running_line args <$> ps.
Proof.
  induction ps as [|p ps IH]; intros i w all_results; [done |].
  rewrite process_pairs_cons.
  pose proof (process_pair_running args total i p w all_results) as Hstep.
  destruct (process_pair args total i p w all_results) as [[w1 res1] log1].
  specialize (IH (S i) w1 res1).
  destruct (process_pairs args total (S i) ps w1 res1) as [[w2 res2] log2].
  simpl in *. by rewrite running_app, Hstep, IH.
Qed.

Lemma scan_pae_files_running (w : World) (input_path input_folder : string)
    (pae_files : list string) :
  List.filter is_running (scan_pae_files w input_path input_folder pae_files).2 = [].
Proof.
  induction pae_files as [|pae_file rest IH]; [done |].
  simpl. destruct (scan_pae_files w input_path input_folder rest) as [ps log].
  by destruct (path_exists w _).
Qed.

Lemma scan_folders_running (w : World) (predictions_dir : string)
    (folders : list string) :
  List.filter is_running (scan_folders w predictions_dir folders).2 = [].
Proof.
  induction folders as [|f rest IH]; [done |].
  simpl. destruct (scan_folders w _ rest) as [ps log]. simpl in IH.
  destruct (negb (path_isdir w _)); [done |].
  pose proof (scan_pae_files_running w (OsPath.join predictions_dir f)
                f (glob w (pae_pattern (OsPath.join predictions_dir f) f)))
    as Hscan.
  destruct (scan_pae_files _ _ _ _) as [ps1 log1]. simpl in *.
  by rewrite running_app, Hscan, IH.
Qed.

Lemma find_running (w : World) (out_dir : string)
    (ps : list pair) (log : list msg) :
  find_boltz_structures w out_dir = Some (ps, log) →
  List.filter is_running log = [].
Proof.
  unfold find_boltz_structures.
  destruct (negb (path_exists w _)); [by intros [= <- <-] |].
  destruct (listdir w (OsPath.join out_dir "predictions")) as [folders|]; [| done].
  pose proof (scan_folders_running w (OsPath.join out_dir "predictions") folders)
    as Hscan.
  destruct (scan_folders _ _ _) as [ps' log']. by intros [= <- <-].
Qed.

(** The lines printed by a sequence of calls are among its [print]
    calls. *)
Lemma perform_lines (P : msg → Prop) (w : World)
    (s : list (action (number:=number))) :
  Forall (λ a, match a with Print m => P m | ToCsv _ _ => True end) s →
  Forall P (lines_done (perform w s)).
Proof.
  revert w. induction s as [|[m|f df] s IH]; intros w Hall; simpl.
  - constructor.
  - apply Forall_cons in Hall as [Hm Hall]. constructor; [done | by apply IH].
  - apply Forall_cons in Hall as [_ Hall].
    destruct (to_csv w f df) as [w1|]; simpl; [by apply IH | constructor].
Qed.

Lemma save_types_quiet (output_prefix : string) (df : frame)
    (types : list (scalar number)) :
  Forall (λ a, match a with Print m => is_running m = false | ToCsv _ _ => True end)
         (save_types output_prefix df types).
Proof.
  induction types as [|v types IH]; [constructor |].
  simpl. apply Forall_app. split; [| done].
  destruct (negb (empty _)); repeat constructor.
Qed.

Lemma save_results_quiet (output_prefix : string) (df : frame) :
  Forall (λ a, match a with Print m => is_running m = false | ToCsv _ _ => True end)
         (save_results output_prefix df).
Proof.
  unfold save_results, save_by_type, save_chains.
  apply Forall_app. split; [| repeat constructor].
  destruct (has_column "Type" df); [| constructor].
  constructor; [done |]. apply Forall_app. split; [apply save_types_quiet |].
  destruct (has_column "Chn1" df && has_column "Chn2" df); [| constructor].
  apply Forall_app.
  split; destruct (negb (empty _)); repeat constructor.
Qed.

Lemma filter_none {A : Type} (f : A → bool) (l : list A) :
  Forall (λ a, f a = false) l → List.filter f l = [].
Proof.
  induction 1 as [|a l Ha _ IH]; [done |]. simpl. by rewrite Ha.
Qed.

(** X4: the external command is run once for every discovered pair, in
    the order of discovery and whatever happens to the pairs before it,
    and for nothing else: the "Running" lines of a run are the command
    lines of the discovered pairs (none when the run stops at the
    validation of its arguments). *)
Theorem one_invocation_per_pair (w : World) (args : Args number) :
  List.filter is_running (printed (main w args))
  = if path_exists w (out_dir args) && path_exists w (ipsae_script args)
    then running_line args <$> discovered_pairs w (out_dir args)
    else [].
Proof.
  unfold discovered_pairs, main.
  destruct (path_exists w (out_dir args)); [| done].
  destruct (path_exists w (ipsae_script args)); [| done].
  pose proof (find_running w (out_dir args)) as Hfind.
  destruct (find_boltz_structures w (out_dir args)) as [[ps log0]|]; [| done].
  specialize (Hfind ps log0 eq_refl). simpl.
  destruct ps as [|p ps].
  - simpl. by rewrite running_app, Hfind.
  - pose proof (process_pairs_running args (length (p :: ps)) (p :: ps) 1 w [])
      as Hloop.
    destruct (process_pairs _ _ _ _ _ _) as [[w1 res] log1]. simpl snd in Hloop.
    destruct res as [|df res].
    + simpl. rewrite !running_app, Hfind. simpl. rewrite Hloop.
      by rewrite app_nil_r.
    + cbv beta iota zeta.
      pose proof (perform_lines (λ m, is_running m = false) w1
                    (Print (Combined (len (concat (df :: res))) (length (df :: res)))
                     :: save_results (output_prefix args) (concat (df :: res))))
        as Hsave.
      apply filter_none in Hsave;
        [| constructor; [done | apply save_results_quiet]].
      cbn [printed]. rewrite app_comm_cons, running_app.
      etransitivity; [apply (f_equal (λ l, _ ++ l)); exact Hsave |].
      rewrite app_nil_r. simpl. rewrite running_app, Hfind. simpl.
      by rewrite Hloop.
Qed.

End Invocations.

Section Collected.
Context {number World : Type} {number_ops : PyNumber number}
  {platform : Platform number World}.

Local Abbreviation cellT := (scalar number).
Local Abbreviation rowT := (gmap string (scalar number)).
Local Abbreviation frame := (DataFrame number).

Lemma set_column_empty (c : string) (v : cellT) (df : frame) :
  empty df = false → empty (set_column c v df) = false.
Proof.
  unfold empty, set_column. simpl.
  destruct (columns df) as [|c0 cols]; [done |].
  destruct (rows df) as [|r rs]; [done |]. intros _.
  by destruct (has_column c _).
Qed.

Lemma add_metadata_empty (p : pair) (df : frame) :
  empty df = false → empty (add_metadata p df) = false.
Proof.
  destruct p as [[pae cif] name]. unfold add_metadata. intros Hdf.
  by do 3 apply set_column_empty.
Qed.

Lemma add_metadata_has_columns (p : pair) (df : frame) :
  has_column "input_name" (add_metadata p df) = true
  ∧ has_column "pae_file" (add_metadata p df) = true
  ∧ has_column "cif_file" (add_metadata p df) = true.
Proof.
  destruct p as [[pae cif] name].
  rewrite !has_column_true, !add_metadata_columns. naive_solver.
Qed.

Lemma process_pair_adds (args : Args number) (total i : nat) (p : pair)
    (w : World) (all_results : list frame) :
  (process_pair args total i p w all_results).1.2 = all_results
  ∨ ∃ df0, empty df0 = false
           ∧ (process_pair args total i p w all_results).1.2
             = all_results ++ [add_metadata p df0].
Proof.
  unfold process_pair. destruct p as [[pae cif] name].
  destruct (run_ipsae _ _ _ _ _ _) as [[[txt|] w1] log1]; [| by left].
  destruct (String.eqb txt EmptyString); [by left |].
  destruct (parse_ipsae_output w1 txt) as [[df0|] log2]; [| by left].
  destruct (empty df0) eqn:Hempty; [by left |]. right. by exists df0.
Qed.

Lemma process_pairs_adds (args : Args number) (total : nat) (ps : list pair) :
  ∀ (i : nat) (w : World) (all_results : list frame),
  ∃ added, (process_pairs args total i ps w all_results).1.2 = all_results ++ added
           ∧ (length added ≤ length ps)%nat
           ∧ Forall (well_collected ps) added.
Proof.
  induction ps as [|p ps IH]; intros i w all_results.
  - exists []. by rewrite app_nil_r.
  - rewrite process_pairs_cons.
    pose proof (process_pair_adds args total i p w all_results) as Hstep.
    destruct (process_pair args total i p w all_results) as [[w1 res1] log1].
    destruct (IH (S i) w1 res1) as (added & Hadded & Hlen & Hall).
    destruct (process_pairs args total (S i) ps w1 res1) as [[w2 res2] log2].
    simpl in *.
    assert (Forall (well_collected (p :: ps)) added) as Hall'.
    { eapply Forall_impl; [exact Hall |].
      intros df (q & df0 & Hin & Hne & ->).
      exists q, df0. split; [by right | done]. }
    destruct Hstep as [-> | (df0 & Hne & ->)].
    + exists added. split; [done |]. split; [lia | done].
    + exists (add_metadata p df0 :: added). split; [by rewrite Hadded, <- app_assoc |].
      split; [simpl; lia |]. constructor; [| done].
      exists p, df0. split; [by left | done].
Qed.

(** X5: a run collects at most one table per discovered pair; every
    collected table has at least one row and has the three metadata
    columns, so the combined table of a run that collected something has
    them too and has at least one row. *)
Theorem collected_tables_sound (w : World) (args : Args number) :
  (length (produced_tables w args)
   ≤ length (discovered_pairs w (out_dir args)))%nat
  ∧ Forall (λ df, empty df = false
                  ∧ has_column "input_name" df = true
                  ∧ has_column "pae_file" df = true
                  ∧ has_column "cif_file" df = true)
           (produced_tables w args)
  ∧ (produced_tables w args ≠ [] →
     (0 < len (concat (produced_tables w args)))%nat
     ∧ has_column "input_name" (concat (produced_tables w args)) = true
     ∧ has_column "pae_file" (concat (produced_tables w args)) = true
     ∧ has_column "cif_file" (concat (produced_tables w args)) = true).
Proof.
  assert ((length (produced_tables w args)
           ≤ length (discovered_pairs w (out_dir args)))%nat
          ∧ Forall (well_collected (discovered_pairs w (out_dir args)))
                   (produced_tables w args)) as [Hlen Hall].
  { unfold produced_tables.
    destruct (negb (path_exists w (out_dir args))); [split; [simpl; lia | done] |].
    destruct (negb (path_exists w (ipsae_script args))); [split; [simpl; lia | done] |].
    destruct (process_pairs_adds args
                (length (discovered_pairs w (out_dir args)))
                (discovered_pairs w (out_dir args)) 1 w [])
      as (added & -> & Hlen & Hall).
    done. }
  assert (Forall (λ df, empty df = false
                        ∧ has_column "input_name" df = true
                        ∧ has_column "pae_file" df = true
                        ∧ has_column "cif_file" df = true)
                 (produced_tables w args)) as Hgood.
  { eapply Forall_impl; [exact Hall |].
    intros df (p & df0 & _ & Hne & ->).
    split; [by apply add_metadata_empty | apply add_metadata_has_columns]. }
  split; [done |]. split; [done |].
  intros Hsome. destruct (produced_tables w args) as [|df dfs] eqn:Hdfs; [done |].
  apply Forall_cons in Hgood as [(Hne & Hn & Hp & Hc) _].
  split.
  - rewrite concat_len. simpl.
    unfold empty in Hne. unfold len.
    destruct (columns df); [done |]. destruct (rows df); [done |]. simpl. lia.
  - rewrite !has_column_true in *.
    repeat split; apply union_columns_spec; exists df; (split; [by left | done]).
Qed.

End Collected.

Section Written.
Context {number World : Type} {number_ops : PyNumber number}
  {platform : Platform number World}.

Local Abbreviation cellT := (scalar number).
Local Abbreviation rowT := (gmap string (scalar number)).
Local Abbreviation frame := (DataFrame number).

Lemma select_rows (mask : rowT → bool) (df : frame) (r : rowT) :
  r ∈ rows (select mask df) → r ∈ rows df.
Proof.
  unfold select. simpl. rewrite !list_elem_of_In, List.filter_In. naive_solver.
Qed.

Lemma reindex_dom (cols : list string) (df : frame) (r : rowT) :
  dom (reindex cols df r) =@{gset string} list_to_set cols.
Proof.
  induction cols as [|c cols IH]; simpl.
  - apply dom_empty_L.
  - by rewrite dom_insert_L, IH.
Qed.

Lemma settle_row_dom (dfs : list frame) (r : rowT) :
  dom (settle_row dfs r) =@{gset string} dom r.
Proof.
  apply set_eq. intros c. rewrite !elem_of_dom, settle_row_lookup.
  destruct (r !! c); simpl; split; intros [x Hx]; by eauto.
Qed.

(** What a run writes: a write of the write phase for its combined
    table. *)
Lemma main_written_elem (w : World) (args : Args number)
    (name : string) (df : frame) :
  (name, df) ∈ written (main w args) →
  produced_tables w args ≠ []
  ∧ (name, df) ∈ writes_of (save_results (output_prefix args)
                              (concat (produced_tables w args))).
Proof.
  intros Hin. apply (prefix_elem _ _ _ (main_written_prefix w args)) in Hin.
  assert (produced_tables w args = [] ∨ produced_tables w args ≠ [])
    as [Hp | Hne] by (destruct (produced_tables w args); [by left | by right]).
  - unfold planned_writes in Hin. rewrite Hp in Hin. by apply elem_of_nil in Hin.
  - split; [done |]. by rewrite <- (planned_writes_with_tables w args Hne).
Qed.

(** X6: no output file is empty: every table written has at least one
    row. *)
Theorem no_empty_output_file (w : World) (args : Args number)
    (name : string) (df : frame) :
  (name, df) ∈ written (main w args) → rows df ≠ [].
Proof.
  intros [Hsome Hin]%main_written_elem.
  destruct (collected_tables_sound w args) as (_ & _ & Hcombined).
  destruct (Hcombined Hsome) as (Hlen & _).
  apply save_results_elem in Hin
    as [(_ & v & _ & Hne & _ & ->) | [(_ & _ & _ & Hne & _) | [_ ->]]].
  - by apply empty_false_rows.
  - by apply empty_false_rows.
  - unfold len in Hlen. intros Hnil. rewrite Hnil in Hlen. simpl in Hlen. lia.
Qed.

(** X7: every table written has the columns of the combined table, its
    rows are rows of the combined table, and each of its rows has a cell
    for exactly these columns. *)
Theorem written_tables_rectangular (w : World) (args : Args number)
    (name : string) (df : frame) :
  (name, df) ∈ written (main w args) →
  columns df = columns (concat (produced_tables w args))
  ∧ ∀ r, r ∈ rows df →
      r ∈ rows (concat (produced_tables w args))
      ∧ dom r =@{gset string} list_to_set (columns df).
Proof.
  intros [Hsome Hin]%main_written_elem.
  set (combined_df := concat (produced_tables w args)) in *.
  assert (∀ r, r ∈ rows combined_df →
            dom r =@{gset string} list_to_set (columns combined_df)) as Hdom.
  { intros r (t & r0 & _ & _ & ->)%concat_rows.
    rewrite settle_row_dom. apply reindex_dom. }
  assert (df = combined_df ∨ ∃ mask, df = select mask combined_df) as Hsel.
  { apply save_results_elem in Hin
      as [(_ & v & _ & _ & _ & ->) | [(_ & _ & _ & _ & [[_ ->] | [_ ->]]) | [_ ->]]];
      [right | right | right | left]; (done || by eexists). }
  destruct Hsel as [-> | [mask ->]]; [naive_solver |].
  split; [done |]. intros r Hr%select_rows. split; [done |]. by apply Hdom.
Qed.

Lemma type_rows_missing (df : frame) (v : cellT) :
  empty (type_rows df v) = false → is_missing v = false.
Proof.
  intros Hne%empty_false_rows. destruct v; [done | done |].
  exfalso. apply Hne. unfold type_rows, select. simpl.
  induction (rows df) as [|r l IH]; [done |].
  simpl. by rewrite cell_eq_missing_r.
Qed.

(** X8: every file a run writes is one of: [<prefix>_<value>.csv] for a
    value in the [Type] column of the combined table other than the
    missing value, with the rows of that type; [<prefix>_A_to_B.csv] or
    [<prefix>_B_to_A.csv] with the rows of these chains; or
    [<prefix>_complete.csv] with the combined table. *)
Theorem written_names (w : World) (args : Args number)
    (name : string) (df : frame) :
  (name, df) ∈ written (main w args) →
  let combined_df := concat (produced_tables w args) in
  (∃ v, v ∈ column "Type" combined_df ∧ is_missing v = false
        ∧ name = output_prefix args +:+ "_" +:+ format_cell v +:+ ".csv"
        ∧ df = type_rows combined_df v)
  ∨ (name = output_prefix args +:+ "_A_to_B.csv"
     ∧ df = chain_rows "A" "B" combined_df)
  ∨ (name = output_prefix args +:+ "_B_to_A.csv"
     ∧ df = chain_rows "B" "A" combined_df)
  ∨ (name = output_prefix args +:+ "_complete.csv" ∧ df = combined_df).
Proof.
  intros [_ Hin]%main_written_elem combined_df.
  apply save_results_elem in Hin
    as [(_ & v & Hv & Hne & -> & ->) | [(_ & _ & _ & _ & [Hab | Hba]) | Hc]].
  - left. exists v. split; [by apply unique_elem |].
    split; [by apply type_rows_missing in Hne | done].
  - right. by left.
  - right. right. by left.
  - right. right. by right.
Qed.

End Written.

Section Selections.
Context {number : Type} {number_ops : PyNumber number}.

Local Abbreviation cellT := (scalar number).
Local Abbreviation rowT := (gmap string (scalar number)).
Local Abbreviation frame := (DataFrame number).

Lemma filter_exclusive {A : Type} (f g : A → bool) (l : list A) :
  (∀ a, f a = true → g a = false) →
  (length (List.filter f l) + length (List.filter g l) ≤ length l)%nat.
Proof.
  intros Hex. induction l as [|a l IH]; [done |].
  simpl. destruct (f a) eqn:Hf.
  - rewrite (Hex a Hf). simpl. lia.
  - destruct (g a); simpl; lia.
Qed.

(** X9: no row is selected both for the A->B file and for the B->A
    file, so the two files together hold at most as many rows as the
    combined table. *)
Theorem chain_selections_disjoint (df : frame) :
  (∀ r, r ∈ rows (chain_rows "A" "B" df) → r ∉ rows (chain_rows "B" "A" df))
  ∧ (len (chain_rows "A" "B" df) + len (chain_rows "B" "A" df) ≤ len df)%nat.
Proof.
  split.
  - intros r (_ & Ha & _)%chain_rows_spec (_ & Hb & _)%chain_rows_spec. congruence.
  - unfold len, chain_rows, select. simpl. apply filter_exclusive.
    intros r [Ha _]%andb_true_iff. apply cell_eq_str in Ha.
    apply andb_false_iff. left.
    destruct (cell_eq (cell "Chn1" r) (Str "B")) eqn:Hb; [| done].
    apply cell_eq_str in Hb. congruence.
Qed.

(** X10: the metadata keeps the rows and the columns of the report: the
    number of rows is unchanged, every cell under another column is
    unchanged, and when the report has none of the three columns they
    are appended after its own, in the order [input_name], [pae_file],
    [cif_file]. *)
Theorem add_metadata_extends (pae cif name : string) (df : frame) :
  len (add_metadata (pae, cif, name) df) = len df
  ∧ rows (add_metadata (pae, cif, name) df)
    = (λ r, <["cif_file" := Str (OsPath.basename cif)]>
              (<["pae_file" := Str (OsPath.basename pae)]>
                 (<["input_name" := Str name]> r))) <$> rows df
  ∧ (∀ r c, r ∈ rows df →
       c ≠ "input_name" → c ≠ "pae_file" → c ≠ "cif_file" →
       cell c (<["cif_file" := Str (OsPath.basename cif)]>
                 (<["pae_file" := Str (OsPath.basename pae)]>
                    (<["input_name" := Str name]> r))) = cell c r)
  ∧ (has_column "input_name" df = false →
     has_column "pae_file" df = false →
     has_column "cif_file" df = false →
     columns (add_metadata (pae, cif, name) df)
     = columns df ++ ["input_name"; "pae_file"; "cif_file"]).
Proof.
  split; [unfold add_metadata, len, set_column; simpl; by rewrite !length_fmap |].
  split.
  { unfold add_metadata, set_column. simpl. rewrite <- !list_fmap_compose. done. }
  split.
  { intros r c _ Hn Hp Hc. unfold cell. by rewrite !lookup_insert_ne. }
  intros Hn Hp Hc. unfold add_metadata.
  assert (∀ c c' v (t : frame), c ≠ c' → has_column c t = false →
            has_column c (set_column c' v t) = false) as Hkeep.
  { intros c c' v t Hne Hno. apply has_column_false. rewrite set_column_columns.
    apply has_column_false in Hno. naive_solver. }
  assert (∀ c v (t : frame), has_column c t = false →
            columns (set_column c v t) = columns t ++ [c]) as Hfresh.
  { intros c v t Hno. unfold set_column. simpl. by rewrite Hno. }
  rewrite !Hfresh; [by rewrite <- !app_assoc | done | by apply Hkeep |].
  apply Hkeep; [done |]. by apply Hkeep.
Qed.

End Selections.

(** ** More facts about strings and paths *)

Lemma after_last_cons (c a : Ascii.ascii) (s : string) :
  PyStr.after_last c (String a s)
  = match PyStr.after_last c s with
    | S k => S (S k)
    | O => if Ascii.eqb a c then 1%nat else 0%nat
    end.
Proof. reflexivity. Qed.

Lemma after_last_app (c : Ascii.ascii) (s t : string) :
  PyStr.after_last c (s +:+ t)
  = match PyStr.after_last c t with
    | S k => (String.length s + S k)%nat
    | O => PyStr.after_last c s
    end.
Proof.
  induction s as [|a s IH].
  - rewrite append_nil. by destruct (PyStr.after_last c t).
  - rewrite append_cons, !after_last_cons, IH.
    destruct (PyStr.after_last c t); [done |]. simpl.
    by rewrite Nat.add_succ_r.
Qed.

Lemma drop_app (s t : string) (n : nat) :
  PyStr.drop (String.length s + n) (s +:+ t) = PyStr.drop n t.
Proof. induction s as [|a s IH]; [done |]. by rewrite append_cons. Qed.

Lemma drop_app_length (s t : string) : PyStr.drop (String.length s) (s +:+ t) = t.
Proof.
  rewrite <- (Nat.add_0_r (String.length s)), drop_app. by destruct t.
Qed.

Lemma take_app_length (s t : string) : PyStr.take (String.length s) (s +:+ t) = s.
Proof.
  induction s as [|a s IH]; [by destruct t |].
  rewrite append_cons. simpl. by rewrite IH.
Qed.

Lemma drop_zero (s : string) : PyStr.drop 0 s = s.
Proof. by destruct s. Qed.

Lemma no_slash_app (s t : string) : no_slash s → no_slash t → no_slash (s +:+ t).
Proof. unfold no_slash. intros Hs Ht. by rewrite after_last_app, Ht. Qed.

Lemma after_last_drop (c : Ascii.ascii) (s : string) :
  PyStr.after_last c (PyStr.drop (PyStr.after_last c s) s) = 0%nat.
Proof.
  induction s as [|a s IH]; [done |].
  rewrite after_last_cons.
  destruct (PyStr.after_last c s) as [|k] eqn:Hs.
  - destruct (Ascii.eqb a c) eqn:Hac.
    + simpl. by rewrite drop_zero in IH.
    + rewrite drop_zero, after_last_cons, Hs. by rewrite Hac.
  - exact IH.
Qed.

Lemma basename_no_slash (p : string) : no_slash (OsPath.basename p).
Proof. apply after_last_drop. Qed.

Lemma basename_id (b : string) : no_slash b → OsPath.basename b = b.
Proof. unfold no_slash, OsPath.basename. intros ->. apply drop_zero. Qed.

Lemma remove_scan_no_char (c : Ascii.ascii) (old : string) (s : string) :
  ∀ skip, PyStr.after_last c s = 0%nat →
          PyStr.after_last c (PyStr.remove_scan old skip s) = 0%nat.
Proof.
  induction s as [|a s IH]; intros skip; [done |].
  rewrite after_last_cons.
  destruct (PyStr.after_last c s) eqn:Hs; [| done].
  destruct (Ascii.eqb a c) eqn:Hac; [done |]. intros _.
  simpl. destruct skip as [|k]; [| by apply IH].
  destruct (PyStr.startswith old (String a s)); [by apply IH |].
  rewrite after_last_cons, IH by done. by rewrite Hac.
Qed.

Lemma remove_all_no_slash (old s : string) :
  no_slash s → no_slash (PyStr.remove_all old s).
Proof.
  unfold no_slash, PyStr.remove_all. intros Hs.
  destruct old; [done |]. by apply remove_scan_no_char.
Qed.

Lemma ends_with_sep (a : string) :
  PyStr.startswith "/" (PyStr.drop (String.length a - 1) a) = true →
  PyStr.after_last OsPath.sep a = String.length a.
Proof.
  induction a as [|x a IH]; [done |].
  rewrite after_last_cons. simpl String.length. rewrite Nat.sub_succ, Nat.sub_0_r.
  destruct a as [|y a'].
  - intros Hend.
    change ((if Ascii.eqb "/" x then true else false) = true) in Hend.
    change ((if Ascii.eqb x "/" then 1 else 0) = 1)%nat.
    rewrite Ascii.eqb_sym. by destruct (Ascii.eqb "/" x).
  - intros Hend. simpl String.length in *. simpl PyStr.drop in Hend.
    rewrite Nat.sub_succ, Nat.sub_0_r in IH. by rewrite (IH Hend).
Qed.

(** [os.path.basename(os.path.join(a, b))] is [os.path.basename(b)]. *)
Lemma basename_join (a b : string) :
  OsPath.basename (OsPath.join a b) = OsPath.basename b.
Proof.
  unfold OsPath.join.
  destruct (PyStr.startswith "/" b); [done |].
  destruct (String.eqb a EmptyString) eqn:Ha; cbn [orb].
  { apply String.eqb_eq in Ha as ->. by rewrite append_nil. }
  destruct (PyStr.startswith "/" (PyStr.drop (String.length a - 1) a)) eqn:Hend.
  - unfold OsPath.basename. rewrite after_last_app.
    destruct (PyStr.after_last OsPath.sep b) as [|k].
    + rewrite (ends_with_sep a Hend), drop_app_length. by rewrite drop_zero.
    + apply drop_app.
  - unfold OsPath.basename. rewrite after_last_app.
    change ("/" +:+ b) with (String OsPath.sep b). rewrite after_last_cons.
    destruct (PyStr.after_last OsPath.sep b) as [|k].
    + rewrite Ascii.eqb_refl, (drop_app a (String OsPath.sep b) 1).
      by rewrite drop_zero.
    + by rewrite (drop_app a (String OsPath.sep b) (S (S k))).
Qed.

Lemma has_stem_underscore (f rest : string) :
  OsPath.has_stem (String.length (f +:+ "_" +:+ rest)) ((f +:+ "_" +:+ rest) +:+ ".cif")
  = true.
Proof.
  induction f as [|a f IH].
  - rewrite append_nil. done.
  - rewrite !append_cons. simpl. by destruct (Ascii.eqb a OsPath.extsep).
Qed.

Lemma splitext_cif (t : string) :
  no_slash t →
  OsPath.has_stem (String.length t) (t +:+ ".cif") = true →
  OsPath.splitext (t +:+ ".cif") = (t, ".cif").
Proof.
  unfold no_slash, OsPath.splitext. intros Hslash Hstem.
  assert (PyStr.after_last OsPath.extsep ".cif" = 1%nat) as Hdot by reflexivity.
  assert (PyStr.after_last OsPath.sep ".cif" = 0%nat) as Hsep by reflexivity.
  rewrite !after_last_app, Hdot, Hsep, Hslash.
  replace (String.length t + 1 - 1)%nat with (String.length t) by lia.
  rewrite Nat.sub_0_r, drop_zero, Hstem.
  replace (0 <? String.length t + 1)%nat with true
    by (symmetry; apply Nat.ltb_lt; lia).
  cbn [andb]. by rewrite take_app_length, drop_app_length.
Qed.

Section ReportName.
Context {number : Type} {number_ops : PyNumber number}.

Lemma model_part_no_slash (input_folder pae_file : string) :
  no_slash (model_part input_folder pae_file).
Proof.
  unfold model_part. do 2 apply remove_all_no_slash. apply basename_no_slash.
Qed.

(** X11: for a PAE file of a folder whose name holds no slash, the CIF
    file looked for has the base name [<group>_<model_part>.cif], and the
    report expected from the tool for that CIF file is named
    [<group>_<model_part>_<pae cutoff>_<dist cutoff>.txt], whatever the
    path of the folder. *)
Theorem report_name_of_pair (input_path input_folder pae_file : string)
    (pc dc : number) :
  no_slash input_folder →
  OsPath.basename (cif_path input_path input_folder pae_file)
  = input_folder +:+ "_" +:+ model_part input_folder pae_file +:+ ".cif"
  ∧ expected_output (cif_path input_path input_folder pae_file) pc dc
    = input_folder +:+ "_" +:+ model_part input_folder pae_file
        +:+ "_" +:+ number_str pc +:+ "_" +:+ number_str dc +:+ ".txt".
Proof.
  intros Hfolder.
  set (mp := model_part input_folder pae_file).
  assert (no_slash (input_folder +:+ "_" +:+ mp)) as Hstem.
  { apply no_slash_app; [done |]. apply no_slash_app; [done |].
    apply model_part_no_slash. }
  assert (OsPath.basename (cif_path input_path input_folder pae_file)
          = (input_folder +:+ "_" +:+ mp) +:+ ".cif") as Hbase.
  { unfold cif_path. rewrite basename_join. fold mp.
    assert (input_folder +:+ "_" +:+ mp +:+ ".cif"
            = (input_folder +:+ "_" +:+ mp) +:+ ".cif") as ->
      by (by rewrite !append_assoc).
    apply basename_id. by apply no_slash_app. }
  split; [by rewrite Hbase, !append_assoc |].
  unfold expected_output. rewrite Hbase.
  rewrite splitext_cif by (done || apply has_stem_underscore).
  simpl fst. by rewrite !append_assoc.
Qed.

End ReportName.

Section PairShape.
Context {number World : Type} {number_ops : PyNumber number}
  {platform : Platform number World}.

(** X12: every pair returned by the discovery comes from an entry that
    [os.listdir] returned for [predictions] and that is a directory, and
    carries that entry as its name; its PAE file is one of the paths
    [glob.glob] returned for the pattern of that entry, and its CIF file
    is [<entry>_<model_part>.cif] joined to the path of that entry, and
    exists. Entries that are not directories contribute nothing. *)
Theorem discovered_pair_shape (w : World) (out_dir : string)
    (pae_file cif_file input_name : string) :
  (pae_file, cif_file, input_name) ∈ discovered_pairs w out_dir →
  let predictions_dir := OsPath.join out_dir "predictions" in
  let input_path := OsPath.join predictions_dir input_name in
  path_exists w predictions_dir = true
  ∧ (∃ folders, listdir w predictions_dir = Some folders ∧ input_name ∈ folders)
  ∧ path_isdir w input_path = true
  ∧ pae_file ∈ glob w (OsPath.join input_path
                         ("pae_" +:+ input_name +:+ "_model_*.npz"))
  ∧ cif_file = OsPath.join input_path
                 (input_name +:+ "_" +:+ model_part input_name pae_file +:+ ".cif")
  ∧ path_exists w cif_file = true.
Proof.
  unfold discovered_pairs, find_boltz_structures. intros Hin. cbv zeta in *.
  set (predictions_dir := OsPath.join out_dir "predictions") in *.
  destruct (path_exists w predictions_dir) eqn:Hpred; simpl in Hin;
    [| by apply elem_of_nil in Hin].
  destruct (listdir w predictions_dir) as [folders|] eqn:Hlist;
    [| by apply elem_of_nil in Hin].
  destruct (scan_folders_spec w predictions_dir folders) as [Hpairs _].
  destruct (scan_folders w predictions_dir folders) as [ps log]. simpl in *.
  rewrite Hpairs in Hin.
  apply list_elem_of_fmap in Hin as ([[ip folder] pae] & Heq & Hin).
  apply list_elem_of_In, List.filter_In in Hin as [Hin Hcif].
  apply list_elem_of_In, searched_elem in Hin as (Hfolder & -> & Hdir & Hglob).
  simpl in Heq, Hcif. injection Heq as -> -> ->.
  split; [done |]. split; [by exists folders |]. done.
Qed.

Lemma filter_split {A : Type} (f : A → bool) (l : list A) :
  (length (List.filter f l) + length (List.filter (λ a, negb (f a)) l))%nat
  = length l.
Proof.
  induction l as [|a l IH]; [done |].
  simpl. destruct (f a); simpl; lia.
Qed.

(** X13: the bookkeeping of the discovery. When [predictions] exists and
    can be listed, every path that [glob.glob] returns for the pattern
    of an entry that is a directory is accounted for once: it gives a
    pair when the CIF file built for it exists, in the order of the
    search, and a "CIF file not found" warning when it does not, so the
    pairs and the warnings together are as many as the paths
    searched. *)
Theorem discovery_bookkeeping (w : World) (out_dir : string)
    (folders : list string) :
  path_exists w (OsPath.join out_dir "predictions") = true →
  listdir w (OsPath.join out_dir "predictions") = Some folders →
  let found := searched w (OsPath.join out_dir "predictions") folders in
  discovered_pairs w out_dir = pair_of <$> List.filter (cif_found w) found
  ∧ count_warnings (discovery_log w out_dir)
    = length (List.filter (λ c, negb (cif_found w c)) found)
  ∧ (length (discovered_pairs w out_dir)
     + count_warnings (discovery_log w out_dir))%nat = length found.
Proof.
  intros Hpred Hlist found.
  assert (discovered_pairs w out_dir = pair_of <$> List.filter (cif_found w) found
          ∧ count_warnings (discovery_log w out_dir)
            = length (List.filter (λ c, negb (cif_found w c)) found))
    as [Hpairs Hwarn].
  { unfold discovered_pairs, discovery_log, find_boltz_structures.
    rewrite Hpred, Hlist. simpl.
    destruct (scan_folders_spec w (OsPath.join out_dir "predictions") folders)
      as [Hp Hw].
    by destruct (scan_folders _ _ _) as [ps log]. }
  split; [done |]. split; [done |].
  rewrite Hpairs, Hwarn, length_fmap. apply filter_split.
Qed.

End PairShape.

(** ** The further properties on the scenarios *)

Import MoreScenarios.


Lemma run_ipsae_returns_existing_witness :
  path_exists (run_ipsae world_ok "ipsae.py" pae0 cif0 (Sim.Whole 15) (Sim.Whole 15)).1.2
    txt0 = true.
Proof.
  assert (∃ w1 log, run_ipsae world_ok "ipsae.py" pae0 cif0 (Sim.Whole 15) (Sim.Whole 15)
                    = (Some txt0, w1, log)) as (w1 & log & Hrun)
    by (eexists _, _; reflexivity).
  destruct (run_ipsae_returns_existing _ _ _ _ _ _ _ _ _ Hrun) as (_ & Hthere & _).
  rewrite Hrun. exact Hthere.
Defined.

Lemma successful_iteration_witness :
  (∃ w1 log,
     process_pair args 1 1 (pae0, cif0, "foo") world_cwd []
     = (Sim.unlink w1 txt0_cwd, [add_metadata (pae0, cif0, "foo") report], log)
     ∧ path_exists w1 txt0_cwd = true
     ∧ path_exists (Sim.unlink w1 txt0_cwd) txt0_cwd = false)
  ∧ (∃ w1 log,
       process_pair args 1 1 (pae0, cif0, "foo") world_ok []
       = (w1, [add_metadata (pae0, cif0, "foo") report], log)
       ∧ path_exists w1 txt0 = true).
Proof.
  split.
  - assert (∃ w1 log1,
              run_ipsae world_cwd (ipsae_script args) pae0 cif0
                (pae_cutoff args) (dist_cutoff args) = (Some txt0_cwd, w1, log1)
              ∧ read_csv w1 txt0_cwd = Table report
              ∧ path_exists w1 txt0_cwd = true
              ∧ path_exists (Sim.unlink w1 txt0_cwd) txt0_cwd = false)
      as (w1 & log1 & Hrun & Hparse & Hthere & Hgone).
    { eexists _, _. repeat split; evaluate. }
    pose proof (successful_iteration args 1 1 pae0 cif0 "foo" world_cwd []
                  txt0_cwd w1 log1 report Hrun Hparse eq_refl) as Hstep.
    eexists _, _. split; [exact Hstep |]. split; assumption.
  - assert (∃ w1 log1,
              run_ipsae world_ok (ipsae_script args) pae0 cif0
                (pae_cutoff args) (dist_cutoff args) = (Some txt0, w1, log1)
              ∧ read_csv w1 txt0 = Table report
              ∧ path_exists w1 txt0 = true)
      as (w1 & log1 & Hrun & Hparse & Hthere).
    { eexists _, _. repeat split; evaluate. }
    pose proof (successful_iteration args 1 1 pae0 cif0 "foo" world_ok []
                  txt0 w1 log1 report Hrun Hparse eq_refl) as Hstep.
    eexists _, _. split; [exact Hstep | exact Hthere].
Defined.

Lemma collected_tables_sound_witness :
  (length (produced_tables world_ok args) ≤ 1)%nat
  ∧ has_column "cif_file" (concat (produced_tables world_ok args)) = true.
Proof.
  destruct (collected_tables_sound world_ok args) as (Hlen & _ & Hcombined).
  split; [exact Hlen |].
  destruct Hcombined as (_ & _ & _ & Hcif); [nonempty |].
  exact Hcif.
Defined.

Lemma complete_file_written :
  (complete_file "ipsae_results", concat (produced_tables world_ok args))
  ∈ written (main world_ok args).
Proof.
  apply last_Some_elem_of. evaluate.
Qed.

Lemma no_empty_output_file_witness :
  rows (concat (produced_tables world_ok args)) ≠ [].
Proof.
  exact (no_empty_output_file world_ok args _ _ complete_file_written).
Defined.

Lemma written_tables_rectangular_witness :
  Forall (λ r, dom r =@{gset string}
               list_to_set (columns (concat (produced_tables world_ok args))))
         (rows (concat (produced_tables world_ok args))).
Proof.
  destruct (written_tables_rectangular world_ok args _ _ complete_file_written)
    as [_ Hrows].
  apply Forall_forall. intros r Hr. apply Hrows, Hr.
Defined.

Lemma type_file_written :
  ("ipsae_results_asym.csv",
   type_rows (concat (produced_tables world_ok args)) (Str "asym"))
  ∈ written (main world_ok args).
Proof.
  assert (written (main world_ok args) !! 0%nat
          = Some ("ipsae_results_asym.csv",
                  type_rows (concat (produced_tables world_ok args)) (Str "asym")))
    as Hfirst by evaluate.
  by apply list_elem_of_lookup_2 in Hfirst.
Qed.

Lemma written_names_witness :
  (∃ v, v ∈ column "Type" (concat (produced_tables world_ok args))
        ∧ is_missing v = false
        ∧ "ipsae_results_asym.csv" = "ipsae_results" +:+ "_" +:+ format_cell v +:+ ".csv"
        ∧ type_rows (concat (produced_tables world_ok args)) (Str "asym")
          = type_rows (concat (produced_tables world_ok args)) v)
  ∨ ("ipsae_results_asym.csv" = "ipsae_results" +:+ "_A_to_B.csv"
     ∧ type_rows (concat (produced_tables world_ok args)) (Str "asym")
       = chain_rows "A" "B" (concat (produced_tables world_ok args)))
  ∨ ("ipsae_results_asym.csv" = "ipsae_results" +:+ "_B_to_A.csv"
     ∧ type_rows (concat (produced_tables world_ok args)) (Str "asym")
       = chain_rows "B" "A" (concat (produced_tables world_ok args)))
  ∨ ("ipsae_results_asym.csv" = "ipsae_results" +:+ "_complete.csv"
     ∧ type_rows (concat (produced_tables world_ok args)) (Str "asym")
       = concat (produced_tables world_ok args)).
Proof.
  exact (written_names world_ok args _ _ type_file_written).
Defined.

Lemma chain_selections_disjoint_witness :
  (len (chain_rows "A" "B" chains_table) + len (chain_rows "B" "A" chains_table)
   ≤ 3)%nat
  ∧ Forall (λ r, r ∉ rows (chain_rows "B" "A" chains_table))
           (rows (chain_rows "A" "B" chains_table)).
Proof.
  destruct (chain_selections_disjoint chains_table) as [Hdisjoint Hlen].
  split; [exact Hlen |]. apply Forall_forall. exact Hdisjoint.
Defined.

Lemma add_metadata_extends_witness :
  columns (add_metadata (pae0, cif0, "foo") report)
  = ["Chn1"; "Chn2"; "Type"; "Score"; "input_name"; "pae_file"; "cif_file"].
Proof.
  destruct (add_metadata_extends pae0 cif0 "foo" report) as (_ & _ & _ & Hcols).
  apply Hcols; reflexivity.
Defined.

Lemma report_name_of_pair_witness :
  expected_output (cif_path "out/predictions/foo" "foo" pae0)
    (Sim.Whole 15) (Sim.Whole 15)
  = "foo" +:+ "_" +:+ model_part "foo" pae0 +:+ "_" +:+ "15.0" +:+ "_" +:+ "15.0"
      +:+ ".txt".
Proof.
  destruct (report_name_of_pair "out/predictions/foo" "foo" pae0
              (Sim.Whole 15) (Sim.Whole 15)) as [_ Hname]; [reflexivity |].
  exact Hname.
Defined.

Lemma discovered_pair_shape_witness :
  (pae0, cif0, "foo") ∈ discovered_pairs world_ok "out"
  ∧ pae0 ∈ glob world_ok "out/predictions/foo/pae_foo_model_*.npz"
  ∧ cif0 = OsPath.join "out/predictions/foo"
             ("foo" +:+ "_" +:+ model_part "foo" pae0 +:+ ".cif")
  ∧ path_exists world_ok cif0 = true.
Proof.
  assert ((pae0, cif0, "foo") ∈ discovered_pairs world_ok "out") as Hin
    by (vm_compute; apply list_elem_of_here).
  split; [exact Hin |].
  destruct (discovered_pair_shape world_ok "out" pae0 cif0 "foo" Hin)
    as (_ & _ & _ & Hglob & Hcif & Hthere).
  split; [exact Hglob |]. split; [exact Hcif | exact Hthere].
Defined.

Lemma discovery_bookkeeping_witness :
  listdir world_ok "out/predictions" = Some ["foo"]
  ∧ searched world_ok "out/predictions" ["foo"]
    = [("out/predictions/foo", "foo", pae0); ("out/predictions/foo", "foo", pae1)]
  ∧ discovered_pairs world_ok "out" = [(pae0, cif0, "foo")]
  ∧ count_warnings (discovery_log world_ok "out") = 1%nat.
Proof.
  assert (path_exists world_ok (OsPath.join "out" "predictions") = true)
    as Hpred by evaluate.
  assert (listdir world_ok (OsPath.join "out" "predictions") = Some ["foo"])
    as Hlist by evaluate.
  destruct (discovery_bookkeeping world_ok "out" ["foo"] Hpred Hlist)
    as (Hpairs & Hwarn & _).
  split; [exact Hlist |]. split; [evaluate |].
  split; [rewrite Hpairs; evaluate | rewrite Hwarn; evaluate].
Defined.
